(** * Windows Graphics Capture: a shallow embedding of the capture core
      and of its DLL boundary.

    The development follows [src/core/ScreenCaptureCore.cpp]
    (namespace [ScreenCaptureCore]) and the DLL export file
    ([ScreenCaptureDLL.cpp]).  The platform (Direct3D 11, WinRT, the
    message queue, the steady clock, the C heap) is an explicit
    environment: every platform call the source makes is given an
    outcome by the environment, and the embedding records each call in
    a trace, in program order.

    What is not a platform call is taken to succeed: the texts built
    for the logger ([Log], [LogError]) and the copies of the path into
    a [std::wstring] are small allocations that the embedding leaves
    out.  The theorems say which calls are made and which code is
    returned under this reading; none of them concludes from it that a
    function of the source lets no exception out. *)

From Stdlib Require Import ZArith NArith List Bool String Lia.
From stdpp Require Import base gmap.
Import ListNotations.

Local Open Scope N_scope.

(** ** Exceptions, outcomes and the trace of platform calls *)

(** The three families the [catch] clauses of the source tell apart:
    [winrt::hresult_error] (with its HRESULT), [std::exception], and
    anything else (caught only by [catch (...)]). *)
Inductive Exception : Type :=
| hresult_error (hr : Z)
| std_exception
| other_exception.

(** What a platform call does when it is made. *)
Inductive Outcome : Type :=
| Returns
| Raises (e : Exception).

(** A wide string: the code units before the terminating zero. *)
Definition wstring : Type := list N.

(** The call sites of the source, one constructor per platform call. *)
Inductive PlatformCall : Type :=
| init_apartment
| D3D11CreateDevice
| QueryInterface_IDXGIDevice
| CreateDirect3D11DeviceFromDXGIDevice
| as_IDirect3DDevice
| get_activation_factory
| as_IGraphicsCaptureItemInterop
| CreateForMonitor
| FramePool_Create
| CreateCaptureSession
| IsCursorCaptureEnabled (enabled : bool)
| IsBorderRequired (required : bool)
| FrameArrived_register
| StartCapture
| PumpMessages
| sleep_for_50ms
| TryGetNextFrame
| GetInterface_ID3D11Texture2D
| CreateTexture2D
| Map_staging
| SavePng (outputPath : wstring)
| Session_Close
| FramePool_Close.

Definition Trace : Type := list (PlatformCall * Outcome).

(** ** The execution monad

    A computation either yields a value, throws a C++ exception, or
    [Hang]s: the marker for a wait loop that used up the recursion
    budget of the embedding.  [Hang] is never caught.  Every
    computation also yields the trace of the calls it made. *)
Inductive Res (A : Type) : Type :=
| Val (a : A)
| Throw (e : Exception)
| Hang.
Arguments Val {A} a.
Arguments Throw {A} e.
Arguments Hang {A}.

Definition Exec (A : Type) : Type := (Res A * Trace)%type.

Definition ret {A} (a : A) : Exec A := (Val a, []).

Definition throw {A} (e : Exception) : Exec A := (Throw e, []).

Definition bind {A B} (m : Exec A) (k : A -> Exec B) : Exec B :=
  match m with
  | (Val a, t) => let '(r, t') := k a in (r, t ++ t')
  | (Throw e, t) => (Throw e, t)
  | (Hang, t) => (Hang, t)
  end.

(** The monad structure is registered with stdpp's classes, so that
    [x ← m; k] and [m;; k] sequence calls as statements do. *)
#[global] Instance Exec_ret : MRet Exec := @ret.
#[global] Instance Exec_bind : MBind Exec := fun A B k m => bind m k.

(** [try { m } catch (...) { h }] *)
Definition try_catch_all {A} (m : Exec A) (h : Exec A) : Exec A :=
  match m with
  | (Throw _, t) => let '(r, t') := h in (r, t ++ t')
  | other => other
  end.

(** [try { m } catch (hresult_error const&) { h }]: other exceptions
    pass through. *)
Definition try_catch_hresult {A} (m : Exec A) (h : Exec A) : Exec A :=
  match m with
  | (Throw (hresult_error _), t) => let '(r, t') := h in (r, t ++ t')
  | other => other
  end.

(** A projected WinRT call: recorded, then returns or throws. *)
Definition call (c : PlatformCall) (o : Outcome) : Exec unit :=
  (match o with Returns => Val tt | Raises e => Throw e end, [(c, o)]).

(** [FAILED(hr)]: the sign bit of the HRESULT. *)
Definition FAILED (hr : Z) : bool := (hr <? 0)%Z.

(** [if (FAILED(hr)) throw hresult_error(hr, ...)], as
    [CreateD3DDevice] writes it. *)
Definition hresult_outcome (hr : Z) : Outcome :=
  if FAILED hr then Raises (hresult_error hr) else Returns.

(** [E_OUTOFMEMORY], 0x8007000E, as a signed 32-bit integer. *)
Definition E_OUTOFMEMORY : Z := -2147024882.

(** [winrt::throw_hresult]: [std::bad_alloc] for [E_OUTOFMEMORY], and
    [hresult_error] or one of the classes derived from it for every
    other code. *)
Definition throw_hresult (hr : Z) : Exception :=
  if (hr =? E_OUTOFMEMORY)%Z then std_exception else hresult_error hr.

Definition check_hresult_outcome (hr : Z) : Outcome :=
  if FAILED hr then Raises (throw_hresult hr) else Returns.

(** A raw COM call returning an HRESULT that the source passes to
    [winrt::check_hresult]. *)
Definition check_hresult (c : PlatformCall) (hr : Z) : Exec unit :=
  call c (check_hresult_outcome hr).

Definition result_of {A} (m : Exec A) : Res A := fst m.
Definition trace_of {A} (m : Exec A) : Trace := snd m.

(** ** The capture core ([ScreenCaptureCore.cpp]) *)
Module ScreenCaptureCore.

(** [enum class ErrorCode : int] of [ScreenCaptureCore.h]. *)
Inductive ErrorCode : Type :=
| Success
| InitializationFailed
| CaptureItemCreationFailed
| CaptureSessionFailed
| TextureProcessingFailed
| FileSaveFailed
| TimeoutError
| UnknownError.

Definition ErrorCode_value (e : ErrorCode) : Z :=
  match e with
  | Success => 0
  | InitializationFailed => 1
  | CaptureItemCreationFailed => 2
  | CaptureSessionFailed => 3
  | TextureProcessingFailed => 4
  | FileSaveFailed => 5
  | TimeoutError => 6
  | UnknownError => 99
  end%Z.

#[global] Instance ErrorCode_eq_dec : EqDecision ErrorCode.
Proof. solve_decision. Defined.

(** *** The environment *)

(** One delivery of the frame-ready notification: what the platform
    answers to each step of the handler. *)
Record FrameEvent : Type := {
  frame_available : bool;        (* TryGetNextFrame gave a frame *)
  on_GetInterface : Z;           (* surface.as<>() and GetInterface *)
  on_CreateTexture2D : Z;
  on_Map : Z;
  on_bitmapData : Outcome;       (* std::vector<uint8_t> bitmapData(dataSize) *)
  on_SavePng : Outcome           (* the whole inner try block *)
}.

(** One turn of the wait loop, between [lock.unlock()] and
    [lock.lock()]: the notifications whose handlers run to completion
    in that window, one after the other, and the time the turn takes
    beyond the 50 ms the thread asks to sleep (message dispatch,
    scheduling, lock acquisition), in nanoseconds.  The handler writes
    [frameReceived] under the mutex the waiter holds outside of this
    window, so the flag changes nowhere else; a turn is taken to end
    (its lateness is a number). *)
Record Window : Type := {
  arrivals : list FrameEvent;
  slack : N
}.

(** What the platform answers during one invocation: an HRESULT for
    the raw COM calls, an outcome for the projected WinRT calls, the
    schedule of notifications and the lateness of the clock. *)
Record Platform : Type := {
  on_init_apartment : Outcome;
  on_D3D11CreateDevice : Z;
  on_QueryInterface_IDXGIDevice : Z;
  on_CreateDirect3D11DeviceFromDXGIDevice : Z;
  on_as_IDirect3DDevice : Outcome;
  on_get_activation_factory : Outcome;
  on_as_IGraphicsCaptureItemInterop : Outcome;
  on_CreateForMonitor : Z;
  on_FramePool_Create : Outcome;
  on_CreateCaptureSession : Outcome;
  on_IsCursorCaptureEnabled : Outcome;
  on_IsBorderRequired : Outcome;
  on_FrameArrived_register : Outcome;
  on_StartCapture : Outcome;
  (* notifications handled between StartCapture and the first lock *)
  early_arrivals : list FrameEvent;
  (* steady_clock::now() - start at the first test of the loop *)
  first_check_lag : N;
  window : nat -> Window;
  on_Session_Close : Outcome;
  on_FramePool_Close : Outcome
}.

(** *** Helpers of the source *)

(** [CreateD3DDevice]: [if (FAILED(hr)) throw hresult_error(hr, ...)],
    whatever the failing code, without [winrt::check_hresult]. *)
Definition CreateD3DDevice (P : Platform) : Exec unit :=
  call D3D11CreateDevice (hresult_outcome (on_D3D11CreateDevice P)).

Definition CreateDirect3DDeviceFromD3D11Device (P : Platform) : Exec unit :=
  check_hresult QueryInterface_IDXGIDevice (on_QueryInterface_IDXGIDevice P);;
  check_hresult CreateDirect3D11DeviceFromDXGIDevice
                (on_CreateDirect3D11DeviceFromDXGIDevice P);;
  call as_IDirect3DDevice (on_as_IDirect3DDevice P).

Definition CreateCaptureItemForMonitor (P : Platform) : Exec unit :=
  call get_activation_factory (on_get_activation_factory P);;
  call as_IGraphicsCaptureItemInterop (on_as_IGraphicsCaptureItemInterop P);;
  check_hresult CreateForMonitor (on_CreateForMonitor P).

(** [ScreenCapture::ScreenCapture]: the apartment initialisation is
    wrapped in [try { } catch (...) { }]. *)
Definition ScreenCapture_ctor (P : Platform) : Exec unit :=
  try_catch_all (call init_apartment (on_init_apartment P)) (mret tt).

(** *** The frame handler and the state it shares with the waiter *)

(** The two locals of [InternalCapture] captured by reference. *)
Record Shared : Type := {
  frameReceived : bool;
  captureSuccess : bool
}.

Definition signal_completion (s : Shared) : Shared :=
  {| frameReceived := true; captureSuccess := captureSuccess s |}.

(** The lambda given to [framePool.FrameArrived]. *)
Definition FrameArrived_handler (outputPath : wstring) (ev : FrameEvent)
    (s : Shared) : Exec Shared :=
  call TryGetNextFrame Returns;;
  if frame_available ev then
    try_catch_hresult
      (check_hresult GetInterface_ID3D11Texture2D (on_GetInterface ev);;
       check_hresult CreateTexture2D (on_CreateTexture2D ev);;
       check_hresult Map_staging (on_Map ev);;
       match on_bitmapData ev with
       | Raises e => throw e
       | Returns =>
           s1 ← try_catch_all
                  (call (SavePng outputPath) (on_SavePng ev);;
                   mret {| frameReceived := frameReceived s;
                           captureSuccess := true |})
                  (mret s);
           mret (signal_completion s1)
       end)
      (mret (signal_completion s))
  else mret s.

(** An exception that leaves the handler is absorbed at the delegate
    boundary ([Invoke] is [noexcept] and turns it into an HRESULT): the
    shared state is as the handler left it, that is, unchanged, since
    only the steps before the first assignment can let one escape. *)
Definition invoke_handler (outputPath : wstring) (ev : FrameEvent)
    (s : Shared) : Exec Shared :=
  try_catch_all (FrameArrived_handler outputPath ev s) (mret s).

Fixpoint deliver (outputPath : wstring) (evs : list FrameEvent)
    (s : Shared) : Exec Shared :=
  match evs with
  | [] => mret s
  | ev :: rest =>
      s' ← invoke_handler outputPath ev s;
      deliver outputPath rest s'
  end.

(** *** The bounded wait *)

(** [std::chrono::seconds(10)] and [std::chrono::milliseconds(50)] in
    nanoseconds, the unit of the steady clock. *)
Definition timeout : N := 10 * 1000000000.
Definition sleep_quantum : N := 50 * 1000000.

(** [while (!frameReceived && (now() - start) < timeout) { unlock; pump;
    sleep_for(50ms); lock; }], with [i] the number of turns already made
    and [elapsed] the clock reading [now() - start] at this test.  The
    first argument bounds the recursion; [Hang] reports a bound that was
    too small. *)
Fixpoint wait_loop (fuel : nat) (P : Platform) (outputPath : wstring)
    (i : nat) (elapsed : N) (s : Shared) : Exec Shared :=
  if negb (frameReceived s) && (elapsed <? timeout) then
    match fuel with
    | O => (Hang, [])
    | S fuel' =>
        call PumpMessages Returns;;
        s' ← deliver outputPath (arrivals (window P i)) s;
        call sleep_for_50ms Returns;;
        wait_loop fuel' P outputPath (S i)
                  (elapsed + sleep_quantum + slack (window P i)) s'
    end
  else mret s.

(** *** [ScreenCapture::InternalCapture] *)

(** Steps 1 to 7 of the body: from device creation to
    [session.StartCapture()].  [Log] and [LogError] only hand a text to
    the logger; they are left out here and below. *)
Definition start_session (P : Platform) (hideBorder hideCursor : bool)
  : Exec unit :=
  (* 1. Create D3D11 Device *)
  CreateD3DDevice P;;
  CreateDirect3DDeviceFromD3D11Device P;;
  (* 2. Create capture item for primary monitor *)
  CreateCaptureItemForMonitor P;;
  (* 3. Create Direct3D11CaptureFramePool *)
  call FramePool_Create (on_FramePool_Create P);;
  (* 4. Create capture session *)
  call CreateCaptureSession (on_CreateCaptureSession P);;
  (* 5. Configure capture session options *)
  (if hideCursor
   then call (IsCursorCaptureEnabled false) (on_IsCursorCaptureEnabled P)
   else mret tt);;
  (if hideBorder
   then try_catch_all
          (call (IsBorderRequired false) (on_IsBorderRequired P))
          (mret tt)
   else mret tt);;
  (* 6. Setup frame processing *)
  call FrameArrived_register (on_FrameArrived_register P);;
  (* 7. Start capture *)
  call StartCapture (on_StartCapture P).

(** The wait for the frame: the flags start out false, and whatever
    handler ran before the waiter first takes the lock has run. *)
Definition wait_for_frame (fuel : nat) (P : Platform) (outputPath : wstring)
  : Exec Shared :=
  s0 ← deliver outputPath (early_arrivals P)
         {| frameReceived := false; captureSuccess := false |};
  wait_loop fuel P outputPath 0 (first_check_lag P) s0.

(** The body of the outer [try]. *)
Definition InternalCapture_body (fuel : nat) (P : Platform)
    (outputPath : wstring) (hideBorder hideCursor : bool) : Exec ErrorCode :=
  start_session P hideBorder hideCursor;;
  s ← wait_for_frame fuel P outputPath;
  if frameReceived s then
    (* Cleanup *)
    call Session_Close (on_Session_Close P);;
    call FramePool_Close (on_FramePool_Close P);;
    mret (if captureSuccess s then Success else FileSaveFailed)
  else
    mret TimeoutError.

(** The three [catch] clauses that close the function body. *)
Definition InternalCapture_n (fuel : nat) (P : Platform)
    (outputPath : wstring) (hideBorder hideCursor : bool) : Exec ErrorCode :=
  match InternalCapture_body fuel P outputPath hideBorder hideCursor with
  | (Throw (hresult_error _), t) => (Val CaptureSessionFailed, t)
  | (Throw std_exception, t) => (Val UnknownError, t)
  | (Throw other_exception, t) => (Val UnknownError, t)
  | other => other
  end.

(** Each turn of the loop advances the clock by at least 50 ms, so 200
    turns exhaust the 10 s budget: with this bound the loop never ends
    in [Hang] ([wait_loop_spec]), and a larger bound gives the same run
    ([InternalCapture_budget_irrelevant]). *)
Definition poll_budget : nat := N.to_nat (timeout / sleep_quantum).

Definition InternalCapture : Platform -> wstring -> bool -> bool -> Exec ErrorCode :=
  InternalCapture_n poll_budget.

Definition CaptureToFile (P : Platform) (outputPath : wstring)
    (hideBorder hideCursor : bool) : Exec ErrorCode :=
  InternalCapture P outputPath hideBorder hideCursor.

(** [CaptureToFile(outputPath)]: hide border and cursor. *)
Definition CaptureToFile_default (P : Platform) (outputPath : wstring)
  : Exec ErrorCode :=
  CaptureToFile P outputPath true true.

End ScreenCaptureCore.

(** ** The DLL boundary ([ScreenCaptureDLL.h], [ScreenCaptureDLL.cpp]) *)
Module ScreenCaptureDLL.
Import ScreenCaptureCore.

(** The C enumeration [ScreenCaptureResult]. *)
Inductive ScreenCaptureResult : Type :=
| SC_SUCCESS
| SC_INITIALIZATION_FAILED
| SC_CAPTURE_ITEM_CREATION_FAILED
| SC_CAPTURE_SESSION_FAILED
| SC_TEXTURE_PROCESSING_FAILED
| SC_FILE_SAVE_FAILED
| SC_TIMEOUT_ERROR
| SC_INVALID_PARAMETER
| SC_NOT_IMPLEMENTED
| SC_UNKNOWN_ERROR.

Definition ScreenCaptureResult_value (r : ScreenCaptureResult) : Z :=
  match r with
  | SC_SUCCESS => 0
  | SC_INITIALIZATION_FAILED => 1
  | SC_CAPTURE_ITEM_CREATION_FAILED => 2
  | SC_CAPTURE_SESSION_FAILED => 3
  | SC_TEXTURE_PROCESSING_FAILED => 4
  | SC_FILE_SAVE_FAILED => 5
  | SC_TIMEOUT_ERROR => 6
  | SC_INVALID_PARAMETER => 97
  | SC_NOT_IMPLEMENTED => 98
  | SC_UNKNOWN_ERROR => 99
  end%Z.

#[global] Instance ScreenCaptureResult_eq_dec : EqDecision ScreenCaptureResult.
Proof. solve_decision. Defined.

Definition ConvertErrorCode (coreError : ErrorCode) : ScreenCaptureResult :=
  match coreError with
  | Success => SC_SUCCESS
  | InitializationFailed => SC_INITIALIZATION_FAILED
  | CaptureItemCreationFailed => SC_CAPTURE_ITEM_CREATION_FAILED
  | CaptureSessionFailed => SC_CAPTURE_SESSION_FAILED
  | TextureProcessingFailed => SC_TEXTURE_PROCESSING_FAILED
  | FileSaveFailed => SC_FILE_SAVE_FAILED
  | TimeoutError => SC_TIMEOUT_ERROR
  | UnknownError => SC_UNKNOWN_ERROR
  end.

(** [wcslen] of a wide string given by its code units. *)
Definition wcslen (s : wstring) : nat := length s.

(** [CaptureScreenWithOptions]: [outputPath] is [None] for a null
    pointer; the two options are C [int]s. *)
Definition CaptureScreenWithOptions (P : Platform)
    (outputPath : option wstring) (hideBorder hideCursor : Z)
  : Exec ScreenCaptureResult :=
  match outputPath with
  | None => mret SC_INVALID_PARAMETER
  | Some path =>
      if Nat.eqb (wcslen path) 0 then mret SC_INVALID_PARAMETER
      else
        try_catch_all
          (ScreenCapture_ctor P;;
           result ← CaptureToFile P path
                      (negb (hideBorder =? 0)%Z) (negb (hideCursor =? 0)%Z);
           mret (ConvertErrorCode result))
          (mret SC_UNKNOWN_ERROR)
  end.

Definition CaptureScreen (P : Platform) (outputPath : option wstring)
  : Exec ScreenCaptureResult :=
  CaptureScreenWithOptions P outputPath 1 1.

(** [GetErrorDescription]: the argument is the integer the caller
    passes for the enumeration, so any [int] can arrive. *)
Definition GetErrorDescription (errorCode : Z) : string :=
  match errorCode with
  | 0 => "Operation completed successfully"
  | 1 => "Failed to initialize capture system"
  | 2 => "Failed to create capture item for monitor"
  | 3 => "Failed to start capture session"
  | 4 => "Failed to process captured texture"
  | 5 => "Failed to save screenshot to file"
  | 6 => "Timeout waiting for frame capture"
  | 97 => "Invalid parameter provided"
  | 98 => "Feature not yet implemented"
  | _ => "Unknown error occurred"
  end%Z%string.

Definition GetLibraryVersion : string :=
  "ScreenCaptureDLL v1.0.0 - Windows Graphics Capture API"%string.

(** *** The C heap *)

Definition Ptr : Type := N.
Definition NULL : Ptr := 0.

(** Live blocks by address. *)
Abbreviation Heap := (gmap N (list Byte.byte)).

(** [malloc(size)]: the environment answers with [NULL] (failure) or
    with the address of a new block, whose contents the source
    overwrites in full. *)
Definition malloc (answer : Ptr) (h : Heap) (size : N) : Ptr * Heap :=
  if answer =? NULL then (NULL, h)
  else (answer, <[answer := repeat Byte.x00 (N.to_nat size)]> h).

(** [memcpy(dst, src, n)] into a live block. *)
Definition memcpy (dst : Ptr) (src : list Byte.byte) (n : N) (h : Heap) : Heap :=
  <[dst := firstn (N.to_nat n) src]> h.

(** [free(p)] for a non-null [p]: defined on live blocks only. *)
Definition free (p : Ptr) (h : Heap) : option Heap :=
  match h !! p with
  | Some _ => Some (delete p h)
  | None => None
  end.

Definition FreeBuffer (buffer : Ptr) (h : Heap) : option Heap :=
  if negb (buffer =? NULL) then free buffer h else Some h.

(** [static_cast<unsigned int>] of a [size_t]. *)
Definition to_unsigned_int (n : N) : N := n mod 2 ^ 32.

(** What [ScreenCapture::CaptureToMemory] does with the vector it is
    given: it returns a code and leaves bytes in the vector, or it
    throws. *)
Inductive MemoryCaptureAnswer : Type :=
| Captured (result : ErrorCode) (buffer : list Byte.byte)
| Failed (e : Exception).

(** The state of the two out-parameters and of the heap after a call.
    An out-parameter is [None] when the pointer to it is null, and
    [Some v] when it points to a cell holding [v]. *)
Record MemoryCaptureResult : Type := {
  mc_result : ScreenCaptureResult;
  mc_outputBuffer : option Ptr;
  mc_bufferSize : option N;
  mc_heap : Heap
}.

Section MemoryCapture.

(** [ScreenCapture::CaptureToMemory] is declared in
    [ScreenCaptureCore.h]; its definition is not part of the sources,
    so the export is embedded over an arbitrary one.  The arguments
    are [hideBorder] and [hideCursor]. *)
Variable CaptureToMemory : bool -> bool -> MemoryCaptureAnswer.

(** The construction of the logger and of the [ScreenCapture] object
    cannot fail (see [ScreenCapture_ctor]) and is left out. *)
Definition CaptureScreenToMemory
    (outputBuffer : option Ptr) (bufferSize : option N)
    (hideBorder hideCursor : Z) (malloc_answer : Ptr) (h : Heap)
  : MemoryCaptureResult :=
  match outputBuffer, bufferSize with
  | Some _, Some _ =>
      match CaptureToMemory (negb (hideBorder =? 0)%Z)
                            (negb (hideCursor =? 0)%Z) with
      | Captured result buffer =>
          if bool_decide (result = Success)
             && negb (Nat.eqb (length buffer) 0)
          then
            let size := to_unsigned_int (N.of_nat (length buffer)) in
            let '(p, h1) := malloc malloc_answer h size in
            if negb (p =? NULL) then
              {| mc_result := SC_SUCCESS;
                 mc_outputBuffer := Some p;
                 mc_bufferSize := Some size;
                 mc_heap := memcpy p buffer size h1 |}
            else
              {| mc_result := SC_UNKNOWN_ERROR;
                 mc_outputBuffer := Some p;
                 mc_bufferSize := Some size;
                 mc_heap := h1 |}
          else
            {| mc_result := ConvertErrorCode result;
               mc_outputBuffer := Some NULL;
               mc_bufferSize := Some 0;
               mc_heap := h |}
      | Failed _ =>
          {| mc_result := SC_UNKNOWN_ERROR;
             mc_outputBuffer := Some NULL;
             mc_bufferSize := Some 0;
             mc_heap := h |}
      end
  | _, _ =>
      {| mc_result := SC_INVALID_PARAMETER;
         mc_outputBuffer := outputBuffer;
         mc_bufferSize := bufferSize;
         mc_heap := h |}
  end.

End MemoryCapture.

End ScreenCaptureDLL.


(** ** The console application ([src/console/main.cpp]) *)
Module ConsoleApp.
Import ScreenCaptureCore.

(** A wide string literal [L"..."]. *)
Definition L (s : string) : wstring :=
  map Ascii.N_of_ascii (String.list_ascii_of_string s).

(** [operator==] of [std::wstring]. *)
Fixpoint wstring_eqb (a b : wstring) : bool :=
  match a, b with
  | [], [] => true
  | x :: a', y :: b' => (x =? y) && wstring_eqb a' b'
  | _, _ => false
  end.

(** The four variables [wmain] passes by reference. *)
Record Options : Type := {
  o_verboseMode : bool;
  o_outputPath : wstring;
  o_hideBorder : bool;
  o_hideCursor : bool
}.

(** What [std::filesystem] answers: [path::extension], [path::parent_path],
    [exists] ([None] when it throws [filesystem_error]) and whether
    [create_directories] returns ([false] when it throws). *)
Record FileSystem : Type := {
  extension : wstring -> wstring;
  parent_path : wstring -> wstring;
  fs_exists : wstring -> option bool;
  fs_create_directories : wstring -> bool
}.

(** What [ParseCommandLine] prints and does to the file system. *)
Inductive Action : Type :=
| ShowUsage
| wcerr_OutputPathRequired
| wcerr_ExtensionWarning
| wcout_CreatingDirectory (parentPath : wstring)
| create_directories (parentPath : wstring) (returned : bool)
| wcerr_ErrorValidating.

(** The test on [args[0]] for help. *)
Definition is_help (a : wstring) : bool :=
  wstring_eqb a (L "--help") || wstring_eqb a (L "-h")
  || wstring_eqb a (L "/?").

(** The [for] loop over the arguments: it stops at the first argument
    that is none of the flags and takes it for the output path. *)
Fixpoint parse_args (args : list wstring) (o : Options) : Options :=
  match args with
  | [] => o
  | a :: rest =>
      if wstring_eqb a (L "--verbose") || wstring_eqb a (L "-v") then
        parse_args rest
          {| o_verboseMode := true; o_outputPath := o_outputPath o;
             o_hideBorder := o_hideBorder o; o_hideCursor := o_hideCursor o |}
      else if wstring_eqb a (L "--show-border") then
        parse_args rest
          {| o_verboseMode := o_verboseMode o; o_outputPath := o_outputPath o;
             o_hideBorder := false; o_hideCursor := o_hideCursor o |}
      else if wstring_eqb a (L "--show-cursor") then
        parse_args rest
          {| o_verboseMode := o_verboseMode o; o_outputPath := o_outputPath o;
             o_hideBorder := o_hideBorder o; o_hideCursor := false |}
      else
        {| o_verboseMode := o_verboseMode o; o_outputPath := a;
           o_hideBorder := o_hideBorder o; o_hideCursor := o_hideCursor o |}
  end.

Definition when (b : bool) (a : Action) : list Action :=
  if b then [a] else [].

(** The [try] block that validates the output path; any
    [std::exception] makes the function return [false]. *)
Definition validate_path (fs : FileSystem) (o : Options)
  : bool * list Action :=
  let warned :=
    when (negb (wstring_eqb (extension fs (o_outputPath o)) (L ".png"))
          && o_verboseMode o) wcerr_ExtensionWarning in
  let parentPath := parent_path fs (o_outputPath o) in
  match parentPath with
  | [] => (true, warned)
  | _ :: _ =>
      match fs_exists fs parentPath with
      | None => (false, warned ++ when (o_verboseMode o) wcerr_ErrorValidating)
      | Some true => (true, warned)
      | Some false =>
          let announced :=
            warned
            ++ when (o_verboseMode o) (wcout_CreatingDirectory parentPath) in
          if fs_create_directories fs parentPath
          then (true, announced ++ [create_directories parentPath true])
          else (false,
                announced ++ [create_directories parentPath false]
                ++ when (o_verboseMode o) wcerr_ErrorValidating)
      end
  end.

(** [ParseCommandLine(argc, argv, ...)]: [argv] is the whole vector,
    program name first, and [o] holds the values the four references
    have on entry. *)
Definition ParseCommandLine (fs : FileSystem) (argv : list wstring)
    (o : Options) : bool * Options * list Action :=
  match argv with
  | [] | [_] => (false, o, [])
  | _ :: a0 :: rest =>
      let o1 := {| o_verboseMode := false; o_outputPath := o_outputPath o;
                   o_hideBorder := true; o_hideCursor := true |} in
      if is_help a0 then (false, o1, [ShowUsage])
      else
        let o2 := parse_args (a0 :: rest) o1 in
        match o_outputPath o2 with
        | [] => (false, o2, when (o_verboseMode o2) wcerr_OutputPathRequired)
        | _ :: _ =>
            let '(ok, acts) := validate_path fs o2 in (ok, o2, acts)
        end
  end.

(** [wmain]: the exit code, with what the argument parser did and the
    platform calls of the capture.  [SetupConsole] and the logger only
    talk to the console and are left out. *)
Definition wmain (fs : FileSystem) (P : Platform) (argv : list wstring)
  : list Action * Exec Z :=
  let o0 := {| o_verboseMode := false; o_outputPath := [];
               o_hideBorder := true; o_hideCursor := true |} in
  let '(ok, o, acts) := ParseCommandLine fs argv o0 in
  if negb ok then
    (acts,
     mret (match argv with
           | _ :: a1 :: _ => if is_help a1 then 0 else 1
           | _ => 1
           end)%Z)
  else
    (acts,
     try_catch_all
       (ScreenCapture_ctor P;;
        result ← CaptureToFile P (o_outputPath o)
                   (o_hideBorder o) (o_hideCursor o);
        mret (if bool_decide (result = Success) then 0
              else ErrorCode_value result)%Z)
       (mret 99%Z)).

End ConsoleApp.

(** ** The C# wrapper ([examples/csharp/ScreenCapture.cs]) *)
Module CSharpWrapper.
Import ScreenCaptureCore ScreenCaptureDLL.

(** A managed string: [None] for [null], else its UTF-16 code units,
    among which zero may occur. *)
Definition managed_string : Type := option (list N).

Definition IsNullOrEmpty (s : managed_string) : bool :=
  match s with
  | None | Some [] => true
  | Some (_ :: _) => false
  end.

(** [MarshalAs(UnmanagedType.LPWStr)]: the callee reads the code units
    up to the first zero. *)
Fixpoint marshal_LPWStr (s : list N) : wstring :=
  match s with
  | [] => []
  | c :: rest => if c =? 0 then [] else c :: marshal_LPWStr rest
  end.

(** [ScreenCapture.Capture(outputPath, hideBorder, hideCursor)].  The
    value is the integer behind the returned [ErrorCode];
    [Throw other_exception] stands for the [InvalidOperationException]
    the wrapper throws when the DLL is not found. *)
Definition Capture (dll_found : bool) (P : Platform)
    (outputPath : managed_string) (hideBorder hideCursor : bool) : Exec Z :=
  if IsNullOrEmpty outputPath then mret 97%Z
  else if dll_found then
    result ← CaptureScreenWithOptions P (marshal_LPWStr <$> outputPath)
               (if hideBorder then 1 else 0)%Z
               (if hideCursor then 1 else 0)%Z;
    mret (ScreenCaptureResult_value result)
  else throw other_exception.

End CSharpWrapper.

(** ** The first version of the program ([main.cpp]) *)
Module Legacy.
Import ScreenCaptureCore.

(** The file the handler of [main.cpp] writes:
    [screen_capture.png] in the pictures library. *)
Definition screen_capture_png : wstring :=
  ConsoleApp.L "screen_capture.png".

(** [CaptureScreenAsync]: the helpers are the ones of the core, word
    for word; there are no visibility toggles; the handler is the one
    of the core without [captureSuccess] and with the fixed target; the
    wait loop is the same; both [Close] calls follow the wait block on
    every path. *)
Definition CaptureScreenAsync_body (fuel : nat) (P : Platform) : Exec unit :=
  (* 1. Create D3D11 Device *)
  CreateD3DDevice P;;
  CreateDirect3DDeviceFromD3D11Device P;;
  (* 2. Create capture item for primary monitor *)
  CreateCaptureItemForMonitor P;;
  (* 3. Create Direct3D11CaptureFramePool *)
  call FramePool_Create (on_FramePool_Create P);;
  (* 4. Create capture session *)
  call CreateCaptureSession (on_CreateCaptureSession P);;
  (* 5. Setup frame processing *)
  call FrameArrived_register (on_FrameArrived_register P);;
  (* 6. Start capture *)
  call StartCapture (on_StartCapture P);;
  wait_for_frame fuel P screen_capture_png;;
  (* Cleanup *)
  call Session_Close (on_Session_Close P);;
  call FramePool_Close (on_FramePool_Close P).

(** The two [catch] clauses of the coroutine: [hresult_error] and
    [std::exception]; anything else is kept for [get()]. *)
Definition CaptureScreenAsync_n (fuel : nat) (P : Platform) : Exec unit :=
  match CaptureScreenAsync_body fuel P with
  | (Throw (hresult_error _), t) => (Val tt, t)
  | (Throw std_exception, t) => (Val tt, t)
  | other => other
  end.

Definition CaptureScreenAsync : Platform -> Exec unit :=
  CaptureScreenAsync_n poll_budget.

(** [wmain]: [-1] when anything is thrown, [0] otherwise. *)
Definition wmain (P : Platform) : Exec Z :=
  try_catch_all
    (call init_apartment (on_init_apartment P);;
     CaptureScreenAsync P;;
     mret 0%Z)
    (mret (-1)%Z).

End Legacy.

(** ** Vocabulary of the properties *)

Import ScreenCaptureCore ScreenCaptureDLL.

Definition returns (o : Outcome) : bool :=
  match o with Returns => true | Raises _ => false end.

(** Device, capture item, frame pool and session are all obtained. *)
Definition acquires (P : Platform) : bool :=
  negb (FAILED (on_D3D11CreateDevice P))
  && negb (FAILED (on_QueryInterface_IDXGIDevice P))
  && negb (FAILED (on_CreateDirect3D11DeviceFromDXGIDevice P))
  && returns (on_as_IDirect3DDevice P)
  && returns (on_get_activation_factory P)
  && returns (on_as_IGraphicsCaptureItemInterop P)
  && negb (FAILED (on_CreateForMonitor P))
  && returns (on_FramePool_Create P)
  && returns (on_CreateCaptureSession P).

(** The registration of the handler and the start of the session
    return. *)
Definition starts (P : Platform) : bool :=
  returns (on_FrameArrived_register P) && returns (on_StartCapture P).

(** The invocation reaches the wait: everything up to
    [session.StartCapture()] returns.  The border toggle is not
    mentioned: its failure is caught on the spot. *)
Definition session_starts (P : Platform) (hideCursor : bool) : bool :=
  acquires P
  && (if hideCursor then returns (on_IsCursorCaptureEnabled P) else true)
  && starts P.

Definition cleanup_returns (P : Platform) : bool :=
  returns (on_Session_Close P) && returns (on_FramePool_Close P).

(** The calls of steps 1 to 4 when all of them return. *)
Definition acquisition_calls : Trace :=
  [(D3D11CreateDevice, Returns); (QueryInterface_IDXGIDevice, Returns);
   (CreateDirect3D11DeviceFromDXGIDevice, Returns);
   (as_IDirect3DDevice, Returns); (get_activation_factory, Returns);
   (as_IGraphicsCaptureItemInterop, Returns); (CreateForMonitor, Returns);
   (FramePool_Create, Returns); (CreateCaptureSession, Returns)].

(** The calls of steps 1 to 7 when the session starts. *)
Definition setup_calls (P : Platform) (hideBorder hideCursor : bool) : Trace :=
  acquisition_calls
  ++ (if hideCursor then [(IsCursorCaptureEnabled false, Returns)] else [])
  ++ (if hideBorder then [(IsBorderRequired false, on_IsBorderRequired P)]
      else [])
  ++ [(FrameArrived_register, Returns); (StartCapture, Returns)].

(** No frame-ready notification is ever delivered. *)
Definition no_notification (P : Platform) : Prop :=
  early_arrivals P = [] /\ forall i, arrivals (window P i) = [].

(** The steady clock at the test that follows [n] more turns, when it
    reads [elapsed] at the test before turn [i]. *)
Fixpoint clock_after (P : Platform) (i : nat) (elapsed : N) (n : nat) : N :=
  match n with
  | O => elapsed
  | S n' =>
      clock_after P (S i) (elapsed + sleep_quantum + slack (window P i)) n'
  end.

(** [now() - start] at the test that follows [k] turns of the loop. *)
Definition check_time (P : Platform) (k : nat) : N :=
  clock_after P 0 (first_check_lag P) k.

(** Number of turns of the wait loop in a trace: one sleep per turn. *)
Fixpoint polls (t : Trace) : nat :=
  match t with
  | [] => O
  | (sleep_for_50ms, _) :: t' => S (polls t')
  | _ :: t' => polls t'
  end.

Definition turns_of (run : Exec ErrorCode) : nat := polls (trace_of run).

(** One turn in which nothing arrives, and [n] of them. *)
Definition quiet_turn : Trace :=
  [(PumpMessages, Returns); (sleep_for_50ms, Returns)].

Fixpoint quiet_turns (n : nat) : Trace :=
  match n with
  | O => []
  | S n' => quiet_turn ++ quiet_turns n'
  end.

(** The texture of the frame reaches CPU memory: interface
    negotiation, staging copy and mapping all succeed. *)
Definition materializes (ev : FrameEvent) : bool :=
  negb (FAILED (on_GetInterface ev))
  && negb (FAILED (on_CreateTexture2D ev))
  && negb (FAILED (on_Map ev)).

(** The HRESULT of the first of the three checked steps that fails,
    if one does. *)
Definition texture_failure (ev : FrameEvent) : option Z :=
  if FAILED (on_GetInterface ev) then Some (on_GetInterface ev)
  else if FAILED (on_CreateTexture2D ev) then Some (on_CreateTexture2D ev)
  else if FAILED (on_Map ev) then Some (on_Map ev)
  else None.

(** The exception is one that [catch (hresult_error const&)] takes. *)
Definition is_hresult_error (e : Exception) : bool :=
  match e with
  | hresult_error _ => true
  | std_exception | other_exception => false
  end.

(** The handler ends with [frameReceived = true]: a frame was
    obtained, and the handler ran to the assignment after the save
    block or was left by an [hresult_error], which its [catch] clause
    takes.  A step that fails with [E_OUTOFMEMORY] throws
    [std::bad_alloc], which leaves the handler with the flag as it
    was. *)
Definition completes (ev : FrameEvent) : bool :=
  frame_available ev
  && match texture_failure ev with
     | Some hr => is_hresult_error (throw_hresult hr)
     | None =>
         match on_bitmapData ev with
         | Returns => true
         | Raises e => is_hresult_error e
         end
     end.

(** The handler encodes and saves the frame: [captureSuccess = true]. *)
Definition saves (ev : FrameEvent) : bool :=
  frame_available ev && materializes ev
  && returns (on_bitmapData ev) && returns (on_SavePng ev).

(** The notifications of turns [i], ..., [i + n - 1]. *)
Fixpoint arrivals_from (P : Platform) (i n : nat) : list FrameEvent :=
  match n with
  | O => []
  | S n' => arrivals (window P i) ++ arrivals_from P (S i) n'
  end.

(** The notifications handled in a run of [n] turns. *)
Definition handled (P : Platform) (n : nat) : list FrameEvent :=
  early_arrivals P ++ arrivals_from P 0 n.

(** In the run, some handler signalled completion; some handler saved
    the image. *)
Definition frame_received (P : Platform) (run : Exec ErrorCode) : bool :=
  existsb completes (handled P (turns_of run)).
Definition frame_saved (P : Platform) (run : Exec ErrorCode) : bool :=
  existsb saves (handled P (turns_of run)).

(** The flags before any handler ran, and after the handlers of [evs]
    ran from [s]. *)
Definition unset : Shared :=
  {| frameReceived := false; captureSuccess := false |}.

Definition after (s : Shared) (evs : list FrameEvent) : Shared :=
  {| frameReceived := frameReceived s || existsb completes evs;
     captureSuccess := captureSuccess s || existsb saves evs |}.

(** The code the [catch] clauses of [InternalCapture] give an
    exception. *)
Definition catch_code (e : Exception) : ErrorCode :=
  match e with
  | hresult_error _ => CaptureSessionFailed
  | std_exception | other_exception => UnknownError
  end.

(** How a run that reached the wait ends, given the calls [t] made so
    far and the notifications [evs] handled. *)
Definition conclude (P : Platform) (t : Trace) (evs : list FrameEvent)
  : Exec ErrorCode :=
  if existsb completes evs then
    match on_Session_Close P, on_FramePool_Close P with
    | Returns, Returns =>
        (Val (if existsb saves evs then Success else FileSaveFailed),
         t ++ [(Session_Close, Returns); (FramePool_Close, Returns)])
    | Returns, Raises e =>
        (Val (catch_code e),
         t ++ [(Session_Close, Returns); (FramePool_Close, Raises e)])
    | Raises e, _ =>
        (Val (catch_code e), t ++ [(Session_Close, Raises e)])
    end
  else (Val TimeoutError, t).

(** Explicit [Close()] calls.  The release of the references when the
    locals go out of scope is not a call of [Close] and leaves no entry
    in the trace. *)
Definition session_created (t : Trace) : Prop :=
  In (CreateCaptureSession, Returns) t.
Definition pool_created (t : Trace) : Prop :=
  In (FramePool_Create, Returns) t.
Definition session_closed (t : Trace) : Prop :=
  exists o, In (Session_Close, o) t.
Definition pool_closed (t : Trace) : Prop :=
  exists o, In (FramePool_Close, o) t.

(** [P] with another answer to [session.IsBorderRequired(false)]. *)
Definition with_border_toggle (P : Platform) (o : Outcome) : Platform :=
  {| on_init_apartment := on_init_apartment P;
     on_D3D11CreateDevice := on_D3D11CreateDevice P;
     on_QueryInterface_IDXGIDevice := on_QueryInterface_IDXGIDevice P;
     on_CreateDirect3D11DeviceFromDXGIDevice :=
       on_CreateDirect3D11DeviceFromDXGIDevice P;
     on_as_IDirect3DDevice := on_as_IDirect3DDevice P;
     on_get_activation_factory := on_get_activation_factory P;
     on_as_IGraphicsCaptureItemInterop := on_as_IGraphicsCaptureItemInterop P;
     on_CreateForMonitor := on_CreateForMonitor P;
     on_FramePool_Create := on_FramePool_Create P;
     on_CreateCaptureSession := on_CreateCaptureSession P;
     on_IsCursorCaptureEnabled := on_IsCursorCaptureEnabled P;
     on_IsBorderRequired := o;
     on_FrameArrived_register := on_FrameArrived_register P;
     on_StartCapture := on_StartCapture P;
     early_arrivals := early_arrivals P;
     first_check_lag := first_check_lag P;
     window := window P;
     on_Session_Close := on_Session_Close P;
     on_FramePool_Close := on_FramePool_Close P |}.

(** [P] with another answer to [session.Close()]. *)
Definition with_session_close (P : Platform) (o : Outcome) : Platform :=
  {| on_init_apartment := on_init_apartment P;
     on_D3D11CreateDevice := on_D3D11CreateDevice P;
     on_QueryInterface_IDXGIDevice := on_QueryInterface_IDXGIDevice P;
     on_CreateDirect3D11DeviceFromDXGIDevice :=
       on_CreateDirect3D11DeviceFromDXGIDevice P;
     on_as_IDirect3DDevice := on_as_IDirect3DDevice P;
     on_get_activation_factory := on_get_activation_factory P;
     on_as_IGraphicsCaptureItemInterop := on_as_IGraphicsCaptureItemInterop P;
     on_CreateForMonitor := on_CreateForMonitor P;
     on_FramePool_Create := on_FramePool_Create P;
     on_CreateCaptureSession := on_CreateCaptureSession P;
     on_IsCursorCaptureEnabled := on_IsCursorCaptureEnabled P;
     on_IsBorderRequired := on_IsBorderRequired P;
     on_FrameArrived_register := on_FrameArrived_register P;
     on_StartCapture := on_StartCapture P;
     early_arrivals := early_arrivals P;
     first_check_lag := first_check_lag P;
     window := window P;
     on_Session_Close := o;
     on_FramePool_Close := on_FramePool_Close P |}.

(** The contract of [CaptureScreenToMemory] as the specification words
    it, on the state a call leaves after a capture that produced
    [png]. *)
Definition memory_contract (png : list Byte.byte) (r : MemoryCaptureResult)
  : Prop :=
  (mc_result r = SC_SUCCESS ->
   (exists p, mc_outputBuffer r = Some p /\ p <> NULL)
   /\ mc_bufferSize r = Some (N.of_nat (length png)))
  /\ (mc_result r <> SC_SUCCESS ->
      mc_outputBuffer r = Some NULL /\ mc_bufferSize r = Some 0).

(** *** Sample environments *)

Definition S_OK : Z := 0.
Definition E_NOINTERFACE : Z := -2147467262.
Definition E_FAIL : Z := -2147467259.
Definition DXGI_ERROR_UNSUPPORTED : Z := -2005270524.

Definition good_frame : FrameEvent :=
  {| frame_available := true; on_GetInterface := S_OK;
     on_CreateTexture2D := S_OK; on_Map := S_OK;
     on_bitmapData := Returns; on_SavePng := Returns |}.

(** A frame whose staging texture cannot be mapped. *)
Definition unmappable_frame : FrameEvent :=
  {| frame_available := true; on_GetInterface := S_OK;
     on_CreateTexture2D := S_OK; on_Map := E_FAIL;
     on_bitmapData := Returns; on_SavePng := Returns |}.

(** A machine described by what can differ between the samples; every
    other call succeeds, and the first test of the loop comes 1
    microsecond after [start] is read. *)
Definition machine (device : Z) (cursor border start : Outcome)
    (w : nat -> Window) : Platform :=
  {| on_init_apartment := Returns;
     on_D3D11CreateDevice := device;
     on_QueryInterface_IDXGIDevice := S_OK;
     on_CreateDirect3D11DeviceFromDXGIDevice := S_OK;
     on_as_IDirect3DDevice := Returns;
     on_get_activation_factory := Returns;
     on_as_IGraphicsCaptureItemInterop := Returns;
     on_CreateForMonitor := S_OK;
     on_FramePool_Create := Returns;
     on_CreateCaptureSession := Returns;
     on_IsCursorCaptureEnabled := cursor;
     on_IsBorderRequired := border;
     on_FrameArrived_register := Returns;
     on_StartCapture := start;
     early_arrivals := [];
     first_check_lag := 1000;
     window := w;
     on_Session_Close := Returns;
     on_FramePool_Close := Returns |}.

(** The frame [ev] is handled in the second turn of the wait, which
    runs 3 ms late. *)
Definition frame_in_second_turn (ev : FrameEvent) (i : nat) : Window :=
  if Nat.eqb i 1 then {| arrivals := [ev]; slack := 3000000 |}
  else {| arrivals := []; slack := 0 |}.

(** The frame [ev] is handled in the first turn. *)
Definition frame_in_first_turn (ev : FrameEvent) (i : nat) : Window :=
  if Nat.eqb i 0 then {| arrivals := [ev]; slack := 0 |}
  else {| arrivals := []; slack := 0 |}.

(** Nothing arrives; every turn runs 1 ms late. *)
Definition no_frame (i : nat) : Window :=
  {| arrivals := []; slack := 1000000 |}.

(** Every call succeeds. *)
Definition nominal : Platform :=
  machine S_OK Returns Returns Returns (frame_in_second_turn good_frame).

(** The desktop never delivers a frame. *)
Definition silent : Platform :=
  machine S_OK Returns Returns Returns no_frame.

(** The frame is handled and saved, and [session.Close()] then fails. *)
Definition close_refused : Platform :=
  with_session_close nominal (Raises (hresult_error E_FAIL)).

(** A frame whose staging texture cannot be mapped for lack of
    memory, delivered in the first turn with nothing after it. *)
Definition out_of_memory_frame : FrameEvent :=
  {| frame_available := true; on_GetInterface := S_OK;
     on_CreateTexture2D := S_OK; on_Map := E_OUTOFMEMORY;
     on_bitmapData := Returns; on_SavePng := Returns |}.

Definition starved : Platform :=
  machine S_OK Returns Returns Returns
          (frame_in_first_turn out_of_memory_frame).

(** The notification comes in the first turn and [TryGetNextFrame]
    gives no frame; nothing comes after it. *)
Definition no_frame_in_notification : FrameEvent :=
  {| frame_available := false; on_GetInterface := S_OK;
     on_CreateTexture2D := S_OK; on_Map := S_OK;
     on_bitmapData := Returns; on_SavePng := Returns |}.

Definition empty_notification : Platform :=
  machine S_OK Returns Returns Returns
          (frame_in_first_turn no_frame_in_notification).

(** [session.StartCapture()] is refused. *)
Definition start_refused : Platform :=
  machine S_OK Returns Returns (Raises (hresult_error E_FAIL)) no_frame.

(** A Windows build whose capture session has no
    [IsCursorCaptureEnabled] property; everything else as [nominal]. *)
Definition no_cursor_toggle : Platform :=
  machine S_OK (Raises (hresult_error E_NOINTERFACE)) Returns Returns
          (frame_in_second_turn good_frame).

(** No hardware device with an accepted feature level. *)
Definition no_device : Platform :=
  machine DXGI_ERROR_UNSUPPORTED Returns Returns Returns
          (frame_in_second_turn good_frame).

(** The frame arrives and its texture cannot be mapped. *)
Definition unmappable : Platform :=
  machine S_OK Returns Returns Returns (frame_in_first_turn unmappable_frame).

(** The eight bytes every PNG starts with, as a stand-in for an encoded
    image, and a core that captures it. *)
Definition png_signature : list Byte.byte :=
  [Byte.x89; Byte.x50; Byte.x4e; Byte.x47;
   Byte.x0d; Byte.x0a; Byte.x1a; Byte.x0a].

Definition captures_signature : bool -> bool -> MemoryCaptureAnswer :=
  fun _ _ => Captured Success png_signature.


(** *** Vocabulary of the further properties *)

(** The calls an invocation may make, given its arguments: a toggle
    only when its option asks for it and only to switch off, a save
    only to the path given, and no apartment initialisation. *)
Definition call_allowed (outputPath : wstring) (hideBorder hideCursor : bool)
    (c : PlatformCall) : bool :=
  match c with
  | init_apartment => false
  | IsCursorCaptureEnabled enabled => hideCursor && negb enabled
  | IsBorderRequired required => hideBorder && negb required
  | SavePng p => bool_decide (p = outputPath)
  | _ => true
  end.

Definition only_allowed (outputPath : wstring) (hideBorder hideCursor : bool)
    (t : Trace) : Prop :=
  Forall (fun x => call_allowed outputPath hideBorder hideCursor (fst x) = true) t.

(** The test of the loop after [n] turns lets the loop end. *)
Definition loop_ends (P : Platform) (n : nat) : Prop :=
  existsb completes (handled P n) = true \/ timeout <= check_time P n.

(** The flags of the console application. *)
Definition is_flag (a : wstring) : bool :=
  ConsoleApp.wstring_eqb a (ConsoleApp.L "--verbose")
  || ConsoleApp.wstring_eqb a (ConsoleApp.L "-v")
  || ConsoleApp.wstring_eqb a (ConsoleApp.L "--show-border")
  || ConsoleApp.wstring_eqb a (ConsoleApp.L "--show-cursor").

Definition is_verbose_flag (a : wstring) : bool :=
  ConsoleApp.wstring_eqb a (ConsoleApp.L "--verbose")
  || ConsoleApp.wstring_eqb a (ConsoleApp.L "-v").

(** The values [wmain] gives the four variables before parsing. *)
Definition initial_options : ConsoleApp.Options :=
  {| ConsoleApp.o_verboseMode := false; ConsoleApp.o_outputPath := [];
     ConsoleApp.o_hideBorder := true; ConsoleApp.o_hideCursor := true |}.

(** A file system on which every directory exists. *)
Definition plain_fs : ConsoleApp.FileSystem :=
  {| ConsoleApp.extension := fun _ => ConsoleApp.L ".png";
     ConsoleApp.parent_path := fun _ => [];
     ConsoleApp.fs_exists := fun _ => Some true;
     ConsoleApp.fs_create_directories := fun _ => true |}.

(** [P] with notifications handled before the waiter first takes the
    lock. *)
Definition with_early_arrivals (P : Platform) (early : list FrameEvent)
  : Platform :=
  {| on_init_apartment := on_init_apartment P;
     on_D3D11CreateDevice := on_D3D11CreateDevice P;
     on_QueryInterface_IDXGIDevice := on_QueryInterface_IDXGIDevice P;
     on_CreateDirect3D11DeviceFromDXGIDevice :=
       on_CreateDirect3D11DeviceFromDXGIDevice P;
     on_as_IDirect3DDevice := on_as_IDirect3DDevice P;
     on_get_activation_factory := on_get_activation_factory P;
     on_as_IGraphicsCaptureItemInterop := on_as_IGraphicsCaptureItemInterop P;
     on_CreateForMonitor := on_CreateForMonitor P;
     on_FramePool_Create := on_FramePool_Create P;
     on_CreateCaptureSession := on_CreateCaptureSession P;
     on_IsCursorCaptureEnabled := on_IsCursorCaptureEnabled P;
     on_IsBorderRequired := on_IsBorderRequired P;
     on_FrameArrived_register := on_FrameArrived_register P;
     on_StartCapture := on_StartCapture P;
     early_arrivals := early;
     first_check_lag := first_check_lag P;
     window := window P;
     on_Session_Close := on_Session_Close P;
     on_FramePool_Close := on_FramePool_Close P |}.

(** The options after the flags [pre] and the path [p] were read,
    starting from [o]. *)
Definition options_after (pre : list wstring) (p : wstring)
    (o : ConsoleApp.Options) : ConsoleApp.Options :=
  {| ConsoleApp.o_verboseMode :=
       ConsoleApp.o_verboseMode o || existsb is_verbose_flag pre;
     ConsoleApp.o_outputPath := p;
     ConsoleApp.o_hideBorder :=
       ConsoleApp.o_hideBorder o
       && negb (existsb (fun a => ConsoleApp.wstring_eqb a
                                    (ConsoleApp.L "--show-border")) pre);
     ConsoleApp.o_hideCursor :=
       ConsoleApp.o_hideCursor o
       && negb (existsb (fun a => ConsoleApp.wstring_eqb a
                                    (ConsoleApp.L "--show-cursor")) pre) |}.

(** The closing calls of a run that reaches them: [session.Close()],
    and [framePool.Close()] when the first returns. *)
Definition closing_calls (P : Platform) : Trace :=
  (Session_Close, on_Session_Close P)
  :: (if returns (on_Session_Close P)
      then [(FramePool_Close, on_FramePool_Close P)] else []).

(** What the closing calls leave: the exception of the first that
    throws. *)
Definition closing_result (P : Platform) : Res unit :=
  match on_Session_Close P, on_FramePool_Close P with
  | Returns, Returns => Val tt
  | Returns, Raises e => Throw e
  | Raises e, _ => Throw e
  end.

(** The path the DLL sees for a managed string. *)
Definition marshalled (s : CSharpWrapper.managed_string) : wstring :=
  match s with
  | None => []
  | Some l => CSharpWrapper.marshal_LPWStr l
  end.

(** ** Laws of the execution monad *)

Lemma bind_val {A B} (a : A) (t : Trace) (k : A -> Exec B) :
  bind (Val a, t) k = (fst (k a), t ++ snd (k a)).
Proof. unfold bind. destruct (k a); reflexivity. Qed.

Lemma bind_val_inv {A B} (m : Exec A) (k : A -> Exec B) (b : B) (t : Trace) :
  bind m k = (Val b, t) ->
  exists a t1 t2, m = (Val a, t1) /\ k a = (Val b, t2) /\ t = t1 ++ t2.
Proof.
  destruct m as [[a| e |] t1]; simpl; try discriminate.
  destruct (k a) as [r t2] eqn:Hk. intros [= -> <-]. exists a, t1, t2. auto.
Qed.

Lemma result_of_bind {A B} (m : Exec A) (k : A -> Exec B) :
  result_of (bind m k)
  = match result_of m with
    | Val a => result_of (k a)
    | Throw e => Throw e
    | Hang => Hang
    end.
Proof.
  destruct m as [[a|e|] t]; simpl; try reflexivity.
  destruct (k a); reflexivity.
Qed.

Lemma call_val_inv (c : PlatformCall) (o : Outcome) (u : unit) (t : Trace) :
  call c o = (Val u, t) -> o = Returns /\ t = [(c, Returns)].
Proof. destruct o; unfold call; intros [= <-]; auto. Qed.

Ltac split_andb :=
  repeat match goal with
         | H : _ && _ = true |- _ => apply andb_prop in H; destruct H
         end.

Ltac use_outcomes :=
  repeat match goal with
         | H : negb ?b = true |- _ => apply negb_true_iff in H; rewrite ?H in *
         | H : returns ?o = true |- _ =>
             destruct o; [clear H | discriminate H]
         end.

(** Case analysis on every answer of the platform in the goal. *)
Ltac ask_platform closer :=
  repeat first
    [ closer
    | match goal with
      | |- context [FAILED ?h] => destruct (FAILED h)
      | |- context [match ?o with Returns => _ | Raises _ => _ end] =>
          destruct o
      end; cbn ].

(** ** Steps 1 to 7 *)

Lemma start_session_returns P hideBorder hideCursor :
  session_starts P hideCursor = true ->
  start_session P hideBorder hideCursor
  = (Val tt, setup_calls P hideBorder hideCursor).
Proof.
  unfold session_starts, acquires, starts, start_session, setup_calls,
    CreateD3DDevice, CreateDirect3DDeviceFromD3D11Device,
    CreateCaptureItemForMonitor, check_hresult, check_hresult_outcome,
    hresult_outcome.
  intros H. destruct hideCursor; split_andb; use_outcomes;
    destruct hideBorder; try destruct (on_IsBorderRequired P); reflexivity.
Qed.

Lemma start_session_decides P hideBorder hideCursor :
  result_of (start_session P hideBorder hideCursor) <> Hang.
Proof.
  unfold start_session, CreateD3DDevice, CreateDirect3DDeviceFromD3D11Device,
    CreateCaptureItemForMonitor, check_hresult, check_hresult_outcome,
    hresult_outcome, call.
  destruct hideBorder, hideCursor; ask_platform ltac:(discriminate).
Qed.

Lemma start_session_border P o hideBorder hideCursor :
  result_of (start_session (with_border_toggle P o) hideBorder hideCursor)
  = result_of (start_session P hideBorder hideCursor).
Proof.
  unfold start_session, CreateD3DDevice, CreateDirect3DDeviceFromD3D11Device,
    CreateCaptureItemForMonitor, check_hresult, check_hresult_outcome,
    hresult_outcome, call.
  cbn [with_border_toggle on_D3D11CreateDevice on_QueryInterface_IDXGIDevice
       on_CreateDirect3D11DeviceFromDXGIDevice on_as_IDirect3DDevice
       on_get_activation_factory on_as_IGraphicsCaptureItemInterop
       on_CreateForMonitor on_FramePool_Create on_CreateCaptureSession
       on_IsCursorCaptureEnabled on_IsBorderRequired
       on_FrameArrived_register on_StartCapture].
  destruct hideBorder, hideCursor; ask_platform ltac:(reflexivity).
Qed.

(** If some call up to [StartCapture] does not return, the steps end
    in its exception. *)
Lemma start_session_throws P hideBorder hideCursor :
  session_starts P hideCursor = false ->
  exists e, result_of (start_session P hideBorder hideCursor) = Throw e.
Proof.
  unfold session_starts, acquires, starts, returns,
    start_session, CreateD3DDevice, CreateDirect3DDeviceFromD3D11Device,
    CreateCaptureItemForMonitor, check_hresult, check_hresult_outcome,
    hresult_outcome, call.
  destruct hideBorder, hideCursor;
    ask_platform ltac:(first [ discriminate
                             | intros _; eexists; reflexivity ]).
Qed.

(** Steps 1 to 7 call no [Close]. *)
Lemma start_session_never_closes P hideBorder hideCursor c o :
  In (c, o) (trace_of (start_session P hideBorder hideCursor)) ->
  c <> Session_Close /\ c <> FramePool_Close.
Proof.
  unfold start_session, CreateD3DDevice, CreateDirect3DDeviceFromD3D11Device,
    CreateCaptureItemForMonitor, check_hresult, check_hresult_outcome,
    hresult_outcome, call.
  destruct hideBorder, hideCursor;
    ask_platform ltac:(solve [ cbn; intros H;
                               repeat destruct H as [H|H];
                               first [ contradiction
                                     | injection H as <- _;
                                       split; discriminate ] ]).
Qed.

(** ** The frame handler *)

Lemma after_nil s : after s [] = s.
Proof. destruct s; unfold after; simpl. by rewrite !orb_false_r. Qed.

Lemma after_app s evs1 evs2 :
  after (after s evs1) evs2 = after s (evs1 ++ evs2).
Proof.
  unfold after; simpl. by rewrite !existsb_app, !orb_assoc.
Qed.

Lemma polls_app t1 t2 : polls (t1 ++ t2) = (polls t1 + polls t2)%nat.
Proof.
  induction t1 as [|[c o] t1 IH]; simpl; [reflexivity|].
  destruct c; simpl; auto.
Qed.

Ltac handler_case :=
  eexists; split;
  [ rewrite ?orb_true_r, ?orb_false_r; reflexivity | reflexivity ].

(** One notification: the flags move as [completes] and [saves] say,
    whichever way the handler is left. *)
Lemma invoke_handler_spec outputPath ev s :
  exists t, invoke_handler outputPath ev s = (Val (after s [ev]), t)
            /\ polls t = 0%nat.
Proof.
  unfold invoke_handler, FrameArrived_handler, after, completes, saves,
    materializes, texture_failure, check_hresult, check_hresult_outcome,
    throw_hresult, signal_completion; simpl.
  destruct s as [fr cs], (frame_available ev); simpl; [|handler_case].
  destruct (FAILED (on_GetInterface ev)); simpl.
  { destruct (on_GetInterface ev =? E_OUTOFMEMORY)%Z; simpl; handler_case. }
  destruct (FAILED (on_CreateTexture2D ev)); simpl.
  { destruct (on_CreateTexture2D ev =? E_OUTOFMEMORY)%Z; simpl;
      handler_case. }
  destruct (FAILED (on_Map ev)); simpl.
  { destruct (on_Map ev =? E_OUTOFMEMORY)%Z; simpl; handler_case. }
  destruct (on_bitmapData ev) as [|[]]; simpl; try handler_case.
  destruct (on_SavePng ev); simpl; handler_case.
Qed.

Lemma deliver_spec outputPath evs : forall s,
  exists t, deliver outputPath evs s = (Val (after s evs), t)
            /\ polls t = 0%nat
            /\ (evs = [] -> t = []).
Proof.
  induction evs as [|ev evs IH]; intros s; simpl.
  - exists []. by rewrite after_nil.
  - destruct (invoke_handler_spec outputPath ev s) as (t1 & -> & Hp1).
    destruct (IH (after s [ev])) as (t2 & H2 & Hp2 & _).
    unfold mbind, Exec_bind. rewrite bind_val, H2; simpl.
    rewrite after_app; simpl. eexists; split; [reflexivity|].
    rewrite polls_app, Hp1, Hp2. split; [reflexivity | discriminate].
Qed.

(** ** The wait loop *)

Lemma budget_covers_timeout :
  N.of_nat poll_budget * sleep_quantum = timeout.
Proof. reflexivity. Qed.

(** With enough recursion budget for the time left, the loop returns:
    after [n] turns it has seen the notifications of these turns, and
    it stopped because the flag was set or the clock passed the
    timeout, not before. *)
Lemma wait_loop_spec P outputPath fuel : forall i elapsed s,
  timeout <= elapsed + N.of_nat fuel * sleep_quantum ->
  exists n t,
    (n <= fuel)%nat
    /\ wait_loop fuel P outputPath i elapsed s
       = (Val (after s (arrivals_from P i n)), t)
    /\ polls t = n
    /\ ((forall j, arrivals (window P j) = []) -> t = quiet_turns n)
    /\ (frameReceived (after s (arrivals_from P i n)) = true
        \/ timeout <= clock_after P i elapsed n)
    /\ (forall k, (k < n)%nat ->
          clock_after P i elapsed k < timeout
          /\ frameReceived (after s (arrivals_from P i k)) = false).
Proof.
  induction fuel as [|fuel IH]; intros i elapsed s Hfuel.
  - exists 0%nat, []. cbn [wait_loop clock_after arrivals_from].
    assert (timeout <= elapsed) as Hle by (simpl in Hfuel; lia).
    assert ((elapsed <? timeout) = false) as -> by (apply N.ltb_ge; lia).
    rewrite andb_false_r, after_nil.
    split; [lia|]. do 3 (split; [reflexivity || auto|]).
    split; [right; exact Hle | intros k Hk; lia].
  - simpl wait_loop.
    destruct (negb (frameReceived s) && (elapsed <? timeout)) eqn:Hc.
    + apply andb_prop in Hc as [Hfr Hlt].
      apply negb_true_iff in Hfr. apply N.ltb_lt in Hlt.
      destruct (deliver_spec outputPath (arrivals (window P i)) s)
        as (td & Hd & Hpd & Hnil).
      destruct (IH (S i) (elapsed + sleep_quantum + slack (window P i))
                   (after s (arrivals (window P i))))
        as (n & t & Hn & Hw & Hp & Hq & Hexit & Hrun); [lia|].
      exists (S n), ([(PumpMessages, Returns)] ++ td
                     ++ [(sleep_for_50ms, Returns)] ++ t).
      rewrite after_app in Hw, Hexit.
      split; [lia|]. split.
      { unfold mbind, Exec_bind. rewrite Hd, bind_val, Hw. reflexivity. }
      split. { simpl. rewrite polls_app, Hpd. simpl. by rewrite Hp. }
      split. { intros Hall. rewrite (Hnil (Hall i)), (Hq Hall). reflexivity. }
      split; [exact Hexit|].
      intros [|k] Hk; cbn [clock_after arrivals_from].
      * rewrite after_nil. auto.
      * rewrite <- after_app. apply Hrun. lia.
    + exists 0%nat, []. cbn [clock_after arrivals_from]. rewrite after_nil.
      split; [lia|]. do 3 (split; [reflexivity || auto|]).
      split; [|intros k Hk; lia].
      apply andb_false_iff in Hc as [Hc|Hc].
      * left. apply negb_false_iff in Hc. exact Hc.
      * right. apply N.ltb_ge in Hc. exact Hc.
Qed.

Lemma wait_loop_border P o outputPath fuel : forall i elapsed s,
  wait_loop fuel (with_border_toggle P o) outputPath i elapsed s
  = wait_loop fuel P outputPath i elapsed s.
Proof.
  induction fuel as [|fuel IH]; intros i elapsed s; [reflexivity|].
  cbn [wait_loop]. destruct (negb (frameReceived s) && (elapsed <? timeout));
    [|reflexivity].
  cbn [window with_border_toggle]. unfold mbind, Exec_bind.
  f_equal. f_equal.
  destruct (deliver outputPath (arrivals (window P i)) s) as [[s'| |] t];
    simpl; try reflexivity.
  rewrite IH. reflexivity.
Qed.

(** A larger recursion budget does not change what the loop returns. *)
Lemma wait_loop_S P outputPath fuel i elapsed s :
  wait_loop (S fuel) P outputPath i elapsed s
  = if negb (frameReceived s) && (elapsed <? timeout) then
      call PumpMessages Returns;;
      s' ← deliver outputPath (arrivals (window P i)) s;
      call sleep_for_50ms Returns;;
      wait_loop fuel P outputPath (S i)
                (elapsed + sleep_quantum + slack (window P i)) s'
    else mret s.
Proof. reflexivity. Qed.

Lemma wait_loop_more_fuel P outputPath fuel : forall i elapsed s r t,
  wait_loop fuel P outputPath i elapsed s = (Val r, t) ->
  wait_loop (S fuel) P outputPath i elapsed s = (Val r, t).
Proof.
  induction fuel as [|fuel IH]; intros i elapsed s r t H.
  - cbn [wait_loop] in *.
    destruct (negb (frameReceived s) && (elapsed <? timeout));
      [discriminate H | exact H].
  - rewrite wait_loop_S in H. rewrite wait_loop_S.
    destruct (negb (frameReceived s) && (elapsed <? timeout)); [|exact H].
    unfold mbind, Exec_bind in *.
    apply bind_val_inv in H as ([] & t1 & t2 & H1 & H & ->).
    apply bind_val_inv in H as (s' & t3 & t4 & H3 & H & ->).
    apply bind_val_inv in H as ([] & t5 & t6 & H5 & H & ->).
    apply IH in H.
    rewrite H1, bind_val, H3, bind_val. cbn [fst snd].
    rewrite H5, bind_val, H. reflexivity.
Qed.

(** The budget of [InternalCapture] is enough whatever the lag. *)
Lemma wait_for_frame_spec P outputPath :
  exists n t,
    (n <= poll_budget)%nat
    /\ wait_for_frame poll_budget P outputPath
       = (Val (after unset (handled P n)), t)
    /\ polls t = n
    /\ (no_notification P -> t = quiet_turns n)
    /\ (existsb completes (handled P n) = true
        \/ timeout <= check_time P n)
    /\ (forall k, (k < n)%nat ->
          check_time P k < timeout
          /\ existsb completes (handled P k) = false).
Proof.
  unfold wait_for_frame, handled, check_time.
  destruct (deliver_spec outputPath (early_arrivals P) unset)
    as (te & He & Hpe & Hnil).
  destruct (wait_loop_spec P outputPath poll_budget 0 (first_check_lag P)
              (after unset (early_arrivals P)))
    as (n & t & Hn & Hw & Hp & Hq & Hexit & Hrun).
  { rewrite budget_covers_timeout. lia. }
  exists n, (te ++ t). split; [exact Hn|].
  rewrite after_app in Hw, Hexit. split.
  { fold unset. unfold mbind, Exec_bind. rewrite He, bind_val, Hw.
    reflexivity. }
  split. { rewrite polls_app, Hpe, Hp. reflexivity. }
  split. { intros [H1 H2]. rewrite (Hnil H1), (Hq H2). reflexivity. }
  split; [exact Hexit|].
  intros k Hk. destruct (Hrun k Hk) as [H1 H2].
  rewrite after_app in H2. auto.
Qed.

Lemma wait_for_frame_more_fuel P outputPath fuel s t :
  wait_for_frame fuel P outputPath = (Val s, t) ->
  wait_for_frame (S fuel) P outputPath = (Val s, t).
Proof.
  unfold wait_for_frame, mbind, Exec_bind. intros H.
  apply bind_val_inv in H as (s0 & t0 & t2 & H0 & H & ->).
  rewrite H0, bind_val, (wait_loop_more_fuel _ _ _ _ _ _ _ _ H).
  reflexivity.
Qed.

(** ** Runs of [InternalCapture] *)

Lemma InternalCapture_n_catch fuel P outputPath hideBorder hideCursor :
  InternalCapture_n fuel P outputPath hideBorder hideCursor
  = match InternalCapture_body fuel P outputPath hideBorder hideCursor with
    | (Throw e, t) => (Val (catch_code e), t)
    | other => other
    end.
Proof.
  unfold InternalCapture_n.
  destruct (InternalCapture_body _ _ _ _ _) as [[c|[]|] t]; reflexivity.
Qed.

(** A run that reaches the wait makes [n <= 200] turns and then
    concludes on the notifications handled in these turns. *)
Lemma InternalCapture_run P outputPath hideBorder hideCursor :
  session_starts P hideCursor = true ->
  exists n t,
    (n <= poll_budget)%nat
    /\ polls t = n
    /\ (no_notification P -> t = quiet_turns n)
    /\ (existsb completes (handled P n) = true
        \/ timeout <= check_time P n)
    /\ (forall k, (k < n)%nat ->
          check_time P k < timeout
          /\ existsb completes (handled P k) = false)
    /\ InternalCapture P outputPath hideBorder hideCursor
       = conclude P (setup_calls P hideBorder hideCursor ++ t) (handled P n).
Proof.
  intros Hs.
  destruct (wait_for_frame_spec P outputPath)
    as (n & t & Hn & Hw & Hp & Hq & Hexit & Hrun).
  exists n, t. do 5 (split; [assumption|]).
  unfold InternalCapture. rewrite InternalCapture_n_catch.
  unfold InternalCapture_body, mbind, Exec_bind.
  rewrite (start_session_returns _ hideBorder _ Hs), bind_val, Hw, bind_val.
  unfold conclude. cbn [frameReceived captureSuccess after unset orb].
  destruct (existsb completes (handled P n)); cbn [fst snd].
  - destruct (on_Session_Close P), (on_FramePool_Close P); cbn;
      rewrite ?app_assoc; reflexivity.
  - cbn. rewrite app_nil_r. reflexivity.
Qed.

Lemma polls_setup_calls P hideBorder hideCursor :
  polls (setup_calls P hideBorder hideCursor) = 0%nat.
Proof. destruct hideBorder, hideCursor; reflexivity. Qed.

Lemma polls_conclude P t evs :
  polls (trace_of (conclude P t evs)) = polls t.
Proof.
  unfold conclude.
  destruct (existsb completes evs); [|reflexivity].
  destruct (on_Session_Close P), (on_FramePool_Close P); cbn;
    rewrite polls_app; simpl; lia.
Qed.

(** The same, with the number of turns read off the trace. *)
Lemma InternalCapture_concludes P outputPath hideBorder hideCursor :
  session_starts P hideCursor = true ->
  let run := InternalCapture P outputPath hideBorder hideCursor in
  (exists t, run = conclude P (setup_calls P hideBorder hideCursor ++ t)
                     (handled P (turns_of run)))
  /\ (frame_received P run = true \/ timeout <= check_time P (turns_of run))
  /\ (forall k, (k < turns_of run)%nat ->
         check_time P k < timeout
         /\ existsb completes (handled P k) = false).
Proof.
  intros Hs run.
  destruct (InternalCapture_run P outputPath hideBorder _ Hs)
    as (n & t & Hn & Hp & Ht & Hexit & Hrun & Heq).
  assert (turns_of run = n) as Hturns.
  { unfold turns_of, run. rewrite Heq, polls_conclude, polls_app,
      polls_setup_calls. exact Hp. }
  unfold frame_received. rewrite Hturns. eauto.
Qed.

Lemma arrivals_from_quiet P : (forall i, arrivals (window P i) = []) ->
  forall n i, arrivals_from P i n = [].
Proof.
  intros H n. induction n as [|n IH]; intros i; simpl; [reflexivity|].
  by rewrite H, IH.
Qed.

Lemma handled_quiet P n : no_notification P -> handled P n = [].
Proof.
  intros [H1 H2]. unfold handled. by rewrite H1, arrivals_from_quiet.
Qed.

Lemma clock_after_last P n : forall i elapsed,
  clock_after P i elapsed (S n)
  = clock_after P i elapsed n + sleep_quantum + slack (window P (i + n)).
Proof.
  induction n as [|n IH]; intros i elapsed.
  - simpl. by rewrite Nat.add_0_r.
  - change (clock_after P i elapsed (S (S n)))
      with (clock_after P (S i)
              (elapsed + sleep_quantum + slack (window P i)) (S n)).
    rewrite IH. simpl. by rewrite Nat.add_succ_r.
Qed.

(** In the embedding every call returns a code: the wait ends, and
    the [catch] clauses, whose texts for the logger are left out,
    return. *)
Lemma InternalCapture_returns P outputPath hideBorder hideCursor :
  exists c, result_of (InternalCapture P outputPath hideBorder hideCursor)
            = Val c.
Proof.
  unfold InternalCapture. rewrite InternalCapture_n_catch.
  unfold InternalCapture_body, mbind, Exec_bind.
  pose proof (start_session_decides P hideBorder hideCursor) as Hd.
  destruct (start_session P hideBorder hideCursor) as [[[]|e|] t1];
    [ | eexists; reflexivity | contradiction Hd; reflexivity ].
  rewrite bind_val.
  destruct (wait_for_frame_spec P outputPath) as (n & t & _ & -> & _).
  rewrite bind_val.
  destruct (frameReceived _);
    [destruct (on_Session_Close P), (on_FramePool_Close P)|];
    eexists; reflexivity.
Qed.

(** The recursion budget of the embedding decides nothing: any larger
    one gives the same run. *)
Lemma InternalCapture_budget_irrelevant extra P outputPath hideBorder hideCursor :
  InternalCapture_n (extra + poll_budget) P outputPath hideBorder hideCursor
  = InternalCapture P outputPath hideBorder hideCursor.
Proof.
  destruct (wait_for_frame_spec P outputPath) as (n & t & _ & Hw & _).
  assert (wait_for_frame (extra + poll_budget) P outputPath
          = wait_for_frame poll_budget P outputPath) as Hsame.
  { rewrite Hw. induction extra as [|extra IH]; [exact Hw|].
    apply wait_for_frame_more_fuel. exact IH. }
  unfold InternalCapture, InternalCapture_n, InternalCapture_body,
    mbind, Exec_bind.
  destruct (start_session P hideBorder hideCursor) as [[[]|e|] t1];
    [|reflexivity|reflexivity].
  rewrite !(bind_val tt t1). rewrite Hsame. reflexivity.
Qed.

(** The codes the function can return: whatever the platform does, the
    three stage codes [InitializationFailed],
    [CaptureItemCreationFailed] and [TextureProcessingFailed] are not
    among them. *)
Lemma InternalCapture_codes fuel P outputPath hideBorder hideCursor c :
  result_of (InternalCapture_n fuel P outputPath hideBorder hideCursor)
  = Val c ->
  c = Success \/ c = FileSaveFailed \/ c = TimeoutError
  \/ c = CaptureSessionFailed \/ c = UnknownError.
Proof.
  rewrite InternalCapture_n_catch.
  destruct (InternalCapture_body _ _ _ _ _) as [[c'|e|] tr] eqn:Hb;
    cbn [result_of fst]; intros [= <-].
  2: { destruct e; simpl; auto. }
  unfold InternalCapture_body, mbind, Exec_bind in Hb.
  apply bind_val_inv in Hb as ([] & t1 & t2 & _ & Hb & ->).
  apply bind_val_inv in Hb as (s & t3 & t4 & _ & Hb & ->).
  destruct (frameReceived s).
  - apply bind_val_inv in Hb as ([] & t5 & t6 & H5 & Hb & ->).
    apply bind_val_inv in Hb as ([] & t7 & t8 & H7 & Hb & ->).
    injection Hb as <- _. destruct (captureSuccess s); auto.
  - injection Hb as <- _. auto.
Qed.

(** ** The bounded wait *)

(** C1: when the session starts and no frame-ready notification is
    delivered, the call returns [TimeoutError].  It makes at most 200
    turns of the loop, each one a drain of the message queue followed by
    a 50 ms sleep; the test that ends the loop is the first at which
    10 s have elapsed; and if no turn runs more than [d] late, it comes
    less than 50 ms + [d] after the 10 s. *)
Theorem wait_times_out P outputPath hideBorder hideCursor :
  session_starts P hideCursor = true ->
  no_notification P ->
  exists n,
    (n <= 200)%nat
    /\ InternalCapture P outputPath hideBorder hideCursor
       = (Val TimeoutError,
          setup_calls P hideBorder hideCursor ++ quiet_turns n)
    /\ timeout <= check_time P n
    /\ (forall k, (k < n)%nat -> check_time P k < timeout)
    /\ (forall d, first_check_lag P < timeout ->
          (forall i, slack (window P i) <= d) ->
          check_time P n < timeout + sleep_quantum + d).
Proof.
  intros Hs Hq.
  destruct (InternalCapture_run P outputPath hideBorder _ Hs)
    as (n & t & Hn & Hp & Ht & Hexit & Hrun & Heq).
  exists n. rewrite (Ht Hq) in Heq. rewrite (handled_quiet _ _ Hq) in *.
  simpl in Hexit. destruct Hexit as [Hex|Hex]; [discriminate|].
  split; [exact Hn|]. split; [exact Heq|]. split; [exact Hex|].
  split; [intros k Hk; apply (Hrun k Hk)|].
  intros d Hlag Hd. destruct n as [|m].
  - unfold check_time in Hex. simpl in Hex. lia.
  - destruct (Hrun m) as [Hm _]; [lia|].
    unfold check_time in *. rewrite clock_after_last.
    specialize (Hd (0 + m)%nat). lia.
Qed.

Lemma wait_times_out_witness :
  session_starts silent true = true
  /\ no_notification silent
  /\ exists n,
       (n <= 200)%nat
       /\ InternalCapture silent [] true true
          = (Val TimeoutError, setup_calls silent true true ++ quiet_turns n)
       /\ timeout <= check_time silent n
       /\ (forall k, (k < n)%nat -> check_time silent k < timeout)
       /\ (forall d, first_check_lag silent < timeout ->
             (forall i, slack (window silent i) <= d) ->
             check_time silent n < timeout + sleep_quantum + d).
Proof.
  split; [reflexivity|]. split; [split; [reflexivity | intros i; reflexivity]|].
  apply (wait_times_out silent [] true true).
  - reflexivity.
  - split; [reflexivity | intros i; reflexivity].
Defined.

(** X3: on the timeout path the function returns from inside the wait
    block: neither [Close] is called. *)
Lemma timeout_skips_cleanup P outputPath hideBorder hideCursor :
  session_starts P hideCursor = true ->
  no_notification P ->
  let t := trace_of (InternalCapture P outputPath hideBorder hideCursor) in
  session_created t /\ ~ session_closed t /\ ~ pool_closed t.
Proof.
  intros Hs Hq.
  destruct (InternalCapture_run P outputPath hideBorder _ Hs)
    as (n & t & _ & _ & Ht & _ & _ & Heq).
  rewrite (Ht Hq), (handled_quiet _ _ Hq) in Heq.
  unfold conclude in Heq. cbn [existsb] in Heq.
  cbn zeta. rewrite Heq. cbn [trace_of snd].
  assert (forall c, c <> PumpMessages -> c <> sleep_for_50ms ->
            forall o m, ~ In (c, o) (quiet_turns m)) as Hquiet.
  { intros c H1 H2 o m. induction m as [|m IH]; simpl; [tauto|].
    intros [[= <-]|[[= <-]|H]]; auto. }
  unfold session_created, session_closed, pool_closed, setup_calls.
  split; [apply in_or_app; left; apply in_or_app; left; simpl; tauto|].
  split; intros [o Hin]; repeat (apply in_app_or in Hin as [Hin|Hin]);
    try (apply Hquiet in Hin; [exact Hin | discriminate | discriminate]);
    destruct hideBorder, hideCursor; simpl in Hin;
    repeat destruct Hin as [Hin|Hin]; try discriminate; exact Hin.
Qed.

(** ** The result once a frame was handled *)

(** C2, as amended: in a run that reaches the wait, in which a handler
    of the frame-ready notification obtained a frame and signalled
    completion, and in which the two closing calls return, the result
    is [Success] exactly when a handler encoded and saved the image,
    and [FileSaveFailed] when none did. *)
Theorem result_after_frame P outputPath hideBorder hideCursor :
  session_starts P hideCursor = true ->
  cleanup_returns P = true ->
  let run := InternalCapture P outputPath hideBorder hideCursor in
  frame_received P run = true ->
  (result_of run = Val Success <-> frame_saved P run = true)
  /\ (frame_saved P run = false -> result_of run = Val FileSaveFailed).
Proof.
  intros Hs Hc run Hf.
  destruct (InternalCapture_concludes P outputPath hideBorder _ Hs)
    as [[t Heq] _].
  fold run in Heq. clearbody run.
  unfold frame_received in Hf. unfold frame_saved.
  set (n := turns_of run) in *. clearbody n. subst run.
  unfold conclude. rewrite Hf.
  unfold cleanup_returns in Hc. split_andb. use_outcomes.
  destruct (existsb saves (handled P n)); cbn.
  - split; [split; reflexivity | intros; discriminate].
  - split; [split; intros; discriminate | reflexivity].
Qed.

Lemma result_after_frame_witness :
  session_starts nominal true = true
  /\ cleanup_returns nominal = true
  /\ frame_received nominal (InternalCapture nominal [] true true) = true
  /\ (result_of (InternalCapture nominal [] true true) = Val Success
      <-> frame_saved nominal (InternalCapture nominal [] true true) = true)
  /\ (frame_saved nominal (InternalCapture nominal [] true true) = false ->
      result_of (InternalCapture nominal [] true true) = Val FileSaveFailed).
Proof.
  split; [reflexivity|]. split; [reflexivity|]. split; [reflexivity|].
  apply (result_after_frame nominal [] true true); reflexivity.
Defined.

(** C2, as stated, fails: the frame is delivered, encoded and saved,
    [session.Close()] then throws, and the call returns
    [CaptureSessionFailed]: neither [Success], although the image was
    saved, nor [FileSaveFailed]. *)
Lemma saved_frame_reported_as_session_failure :
  let run := InternalCapture close_refused [] true true in
  frame_received close_refused run = true
  /\ frame_saved close_refused run = true
  /\ result_of run = Val CaptureSessionFailed
  /\ In (SavePng [], Returns) (trace_of run).
Proof.
  cbv zeta. repeat split; vm_compute; tauto.
Qed.

(** A notification that does not make a handler signal completion
    (no frame behind it, or a handler left by an exception its [catch]
    clause does not take) counts for nothing: if it is the only one,
    the call times out. *)
Lemma lost_notification_times_out P outputPath hideBorder hideCursor ev :
  session_starts P hideCursor = true ->
  early_arrivals P = [] ->
  arrivals (window P 0) = [ev] ->
  (forall i, arrivals (window P (S i)) = []) ->
  completes ev = false ->
  result_of (InternalCapture P outputPath hideBorder hideCursor)
  = Val TimeoutError.
Proof.
  intros Hs Hearly Hw Hlater Hev.
  destruct (InternalCapture_run P outputPath hideBorder _ Hs)
    as (n & t & _ & _ & _ & _ & _ & Heq).
  assert (forall m i, arrivals_from P (S i) m = []) as Hnone.
  { induction m as [|m IH]; intros i; cbn [arrivals_from]; [reflexivity|].
    rewrite Hlater, IH. reflexivity. }
  assert (existsb completes (handled P n) = false) as Hnot.
  { unfold handled. rewrite Hearly. destruct n as [|n]; [reflexivity|].
    cbn [arrivals_from app]. rewrite Hw, Hnone. cbn. rewrite Hev.
    reflexivity. }
  rewrite Heq. unfold conclude. rewrite Hnot. reflexivity.
Qed.

(** Two such notifications: a frame whose mapping fails with
    [E_OUTOFMEMORY], so that [winrt::check_hresult] throws
    [std::bad_alloc] past the handler's [catch (hresult_error const&)],
    and a notification with no frame behind it.  In both runs the wait
    goes through all its 200 turns. *)
Lemma lost_notification_samples :
  result_of (InternalCapture starved [] true true) = Val TimeoutError
  /\ turns_of (InternalCapture starved [] true true) = 200%nat
  /\ result_of (InternalCapture empty_notification [] true true)
     = Val TimeoutError
  /\ turns_of (InternalCapture empty_notification [] true true) = 200%nat.
Proof.
  split; [|split; [|split]].
  - apply (lost_notification_times_out starved [] true true
             out_of_memory_frame); reflexivity.
  - vm_compute. reflexivity.
  - apply (lost_notification_times_out empty_notification [] true true
             no_frame_in_notification); reflexivity.
  - vm_compute. reflexivity.
Qed.


(** ** Closing the session and the frame pool *)

(** C3, as amended: on every path that returns [Success] or
    [FileSaveFailed], the session and then the frame pool are closed,
    and these are the last two calls before the return. *)
Theorem closed_when_frame_seen P outputPath hideBorder hideCursor :
  let run := InternalCapture P outputPath hideBorder hideCursor in
  result_of run = Val Success \/ result_of run = Val FileSaveFailed ->
  exists t, trace_of run
            = t ++ [(Session_Close, Returns); (FramePool_Close, Returns)].
Proof.
  intros run Hr. unfold run, InternalCapture in *.
  rewrite InternalCapture_n_catch in *.
  destruct (InternalCapture_body _ _ _ _ _) as [[c|e|] tr] eqn:Hb;
    cbn [result_of trace_of fst snd] in *.
  2: { destruct e; simpl in Hr; destruct Hr; discriminate. }
  2: { destruct Hr; discriminate. }
  unfold InternalCapture_body, mbind, Exec_bind in Hb.
  apply bind_val_inv in Hb as ([] & t1 & t2 & _ & Hb & ->).
  apply bind_val_inv in Hb as (s & t3 & t4 & _ & Hb & ->).
  destruct (frameReceived s).
  - apply bind_val_inv in Hb as ([] & t5 & t6 & H5 & Hb & ->).
    apply bind_val_inv in Hb as ([] & t7 & t8 & H7 & Hb & ->).
    apply call_val_inv in H5 as [_ ->], H7 as [_ ->].
    injection Hb as _ <-.
    exists (t1 ++ t3). rewrite app_nil_r, <- !app_assoc. reflexivity.
  - injection Hb as <- _. destruct Hr; discriminate.
Qed.

Lemma closed_when_frame_seen_witness :
  (result_of (InternalCapture nominal [] true true) = Val Success
   \/ result_of (InternalCapture nominal [] true true) = Val FileSaveFailed)
  /\ exists t, trace_of (InternalCapture nominal [] true true)
               = t ++ [(Session_Close, Returns); (FramePool_Close, Returns)].
Proof.
  split; [left; reflexivity|].
  apply (closed_when_frame_seen nominal [] true true). left. reflexivity.
Defined.

(** X4: whenever some call up to [StartCapture] does not return, the
    call ends in a catch clause and no [Close] is called. *)
Lemma failed_start_skips_cleanup P outputPath hideBorder hideCursor :
  session_starts P hideCursor = false ->
  let run := InternalCapture P outputPath hideBorder hideCursor in
  (result_of run = Val CaptureSessionFailed
   \/ result_of run = Val UnknownError)
  /\ ~ session_closed (trace_of run) /\ ~ pool_closed (trace_of run).
Proof.
  intros Hs run. subst run.
  destruct (start_session_throws P hideBorder hideCursor Hs) as [e He].
  pose proof (start_session_never_closes P hideBorder hideCursor) as Hno.
  unfold InternalCapture. rewrite InternalCapture_n_catch.
  unfold InternalCapture_body, mbind, Exec_bind.
  destruct (start_session P hideBorder hideCursor) as [r t].
  cbn [result_of trace_of fst snd] in *. subst r. cbn.
  split; [destruct e; auto|].
  split; intros [o Hin]; destruct (Hno _ _ Hin) as [H1 H2]; congruence.
Qed.

(** C3, as stated, fails: when [session.StartCapture()] throws, the
    call returns [CaptureSessionFailed] with the session and the frame
    pool created and neither [Close] called. *)
Lemma close_skipped_when_start_fails :
  let run := InternalCapture start_refused [] true true in
  result_of run = Val CaptureSessionFailed
  /\ session_created (trace_of run) /\ pool_created (trace_of run)
  /\ ~ session_closed (trace_of run) /\ ~ pool_closed (trace_of run).
Proof.
  cbv zeta. unfold session_created, pool_created, session_closed, pool_closed.
  replace (InternalCapture start_refused [] true true)
    with (Val CaptureSessionFailed,
          acquisition_calls
          ++ [(IsCursorCaptureEnabled false, Returns);
              (IsBorderRequired false, Returns);
              (FrameArrived_register, Returns);
              (StartCapture, Raises (hresult_error E_FAIL))])
    by (vm_compute; reflexivity).
  cbn [result_of trace_of fst snd].
  split; [reflexivity|].
  split; [simpl; tauto|]. split; [simpl; tauto|].
  split; intros [o Hin]; simpl in Hin;
    repeat destruct Hin as [Hin|Hin]; try discriminate; exact Hin.
Qed.

(** ** The two visibility toggles *)

(** X2: the border half of the toggles: whatever
    [session.IsBorderRequired(false)] does, the result of the call is
    the same. *)
Lemma border_toggle_failure_is_absorbed P o outputPath hideBorder hideCursor :
  result_of (InternalCapture (with_border_toggle P o)
                             outputPath hideBorder hideCursor)
  = result_of (InternalCapture P outputPath hideBorder hideCursor).
Proof.
  unfold InternalCapture. generalize poll_budget as fuel. intros fuel.
  rewrite !InternalCapture_n_catch.
  assert (result_of (InternalCapture_body fuel (with_border_toggle P o)
                       outputPath hideBorder hideCursor)
          = result_of (InternalCapture_body fuel P
                         outputPath hideBorder hideCursor)) as H.
  { unfold InternalCapture_body, mbind, Exec_bind.
    rewrite !result_of_bind, start_session_border.
    destruct (result_of (start_session P hideBorder hideCursor));
      [|reflexivity|reflexivity].
    unfold wait_for_frame, mbind, Exec_bind.
    cbn [with_border_toggle early_arrivals first_check_lag
         on_Session_Close on_FramePool_Close].
    rewrite !result_of_bind.
    destruct (result_of (deliver outputPath (early_arrivals P) _));
      [|reflexivity|reflexivity].
    rewrite wait_loop_border. reflexivity. }
  destruct (InternalCapture_body fuel (with_border_toggle P o) _ _ _)
    as [r1 t1], (InternalCapture_body fuel P _ _ _) as [r2 t2].
  cbn [result_of fst] in H. subst r2. destruct r1; reflexivity.
Qed.

(** C4, what the code does: with [hideCursor] set, an exception of
    [session.IsCursorCaptureEnabled(false)] is not caught where it is
    raised.  It ends the call with the code of the outer [catch]
    clauses, before the handler is registered and the session
    started. *)
Theorem cursor_toggle_failure_is_fatal P outputPath hideBorder e :
  acquires P = true ->
  on_IsCursorCaptureEnabled P = Raises e ->
  InternalCapture P outputPath hideBorder true
  = (Val (catch_code e),
     acquisition_calls ++ [(IsCursorCaptureEnabled false, Raises e)]).
Proof.
  intros Ha He. unfold InternalCapture. rewrite InternalCapture_n_catch.
  unfold InternalCapture_body, start_session, acquires,
    CreateD3DDevice, CreateDirect3DDeviceFromD3D11Device,
    CreateCaptureItemForMonitor, check_hresult, check_hresult_outcome,
    hresult_outcome in *.
  split_andb. use_outcomes. rewrite He. reflexivity.
Qed.

Lemma cursor_toggle_failure_is_fatal_witness :
  acquires no_cursor_toggle = true
  /\ on_IsCursorCaptureEnabled no_cursor_toggle
     = Raises (hresult_error E_NOINTERFACE)
  /\ InternalCapture no_cursor_toggle [] true true
     = (Val CaptureSessionFailed,
        acquisition_calls
        ++ [(IsCursorCaptureEnabled false,
             Raises (hresult_error E_NOINTERFACE))])
  /\ result_of (InternalCapture nominal [] true true) = Val Success.
Proof.
  split; [reflexivity|]. split; [reflexivity|]. split; [|reflexivity].
  apply (cursor_toggle_failure_is_fatal no_cursor_toggle [] true
           (hresult_error E_NOINTERFACE)); reflexivity.
Defined.

(** ** Failures of the stages *)

(** C5, what the code does: when [D3D11CreateDevice] fails, the
    [hresult_error] thrown by [CreateD3DDevice] reaches the outer
    [catch] and the call returns [CaptureSessionFailed], after that one
    platform call. *)
Theorem device_failure_reported_as_session_failure
    P outputPath hideBorder hideCursor :
  FAILED (on_D3D11CreateDevice P) = true ->
  InternalCapture P outputPath hideBorder hideCursor
  = (Val CaptureSessionFailed,
     [(D3D11CreateDevice,
       Raises (hresult_error (on_D3D11CreateDevice P)))]).
Proof.
  intros Hf. unfold InternalCapture. rewrite InternalCapture_n_catch.
  unfold InternalCapture_body, start_session, CreateD3DDevice,
    check_hresult, check_hresult_outcome,
    hresult_outcome.
  rewrite Hf. reflexivity.
Qed.

Lemma device_failure_reported_as_session_failure_witness :
  FAILED (on_D3D11CreateDevice no_device) = true
  /\ InternalCapture no_device [] true true
     = (Val CaptureSessionFailed,
        [(D3D11CreateDevice,
          Raises (hresult_error DXGI_ERROR_UNSUPPORTED))]).
Proof.
  split; [reflexivity|].
  apply (device_failure_reported_as_session_failure no_device [] true true).
  reflexivity.
Defined.

Lemma texture_failure_stops_frame ev hr :
  texture_failure ev = Some hr -> materializes ev = false.
Proof.
  unfold texture_failure, materializes.
  destruct (FAILED (on_GetInterface ev)); [reflexivity|].
  destruct (FAILED (on_CreateTexture2D ev)); [reflexivity|].
  destruct (FAILED (on_Map ev)); [reflexivity | discriminate].
Qed.

(** C6, what the code does: when the frame is delivered in the first
    turn of the wait and interface negotiation, the staging texture or
    the mapping fails with a code that [winrt::check_hresult] turns
    into an [hresult_error] (any code but [E_OUTOFMEMORY]), the
    handler's [catch (hresult_error const&)] still signals completion
    and the call returns [FileSaveFailed]. *)
Theorem texture_failure_reported_as_save_failure
    P outputPath hideBorder hideCursor ev hr :
  session_starts P hideCursor = true ->
  cleanup_returns P = true ->
  first_check_lag P < timeout ->
  early_arrivals P = [] ->
  arrivals (window P 0) = [ev] ->
  frame_available ev = true ->
  texture_failure ev = Some hr ->
  hr <> E_OUTOFMEMORY ->
  result_of (InternalCapture P outputPath hideBorder hideCursor)
  = Val FileSaveFailed.
Proof.
  intros Hs Hc Hlag Hearly Hw Hav Hfail Hhr.
  pose proof (texture_failure_stops_frame ev hr Hfail) as Hmat.
  destruct (InternalCapture_run P outputPath hideBorder _ Hs)
    as (n & t & Hn & Hp & Ht & Hexit & Hrun & Heq).
  assert (completes ev = true) as Hcomp.
  { unfold completes, throw_hresult. rewrite Hav, Hfail.
    apply Z.eqb_neq in Hhr. rewrite Hhr. reflexivity. }
  assert (saves ev = false) as Hsav.
  { unfold saves. rewrite Hav, Hmat. reflexivity. }
  assert (handled P 1 = [ev]) as H1.
  { unfold handled. simpl. rewrite Hearly, Hw. reflexivity. }
  assert (n = 1%nat) as ->.
  { destruct n as [|[|n]]; [exfalso|reflexivity|exfalso].
    - unfold handled, check_time in Hexit. simpl in Hexit.
      rewrite Hearly in Hexit. simpl in Hexit.
      destruct Hexit; [discriminate | lia].
    - destruct (Hrun 1%nat) as [_ Hk]; [lia|].
      rewrite H1 in Hk. simpl in Hk. rewrite Hcomp in Hk. discriminate. }
  rewrite Heq, H1. unfold conclude. simpl. rewrite Hcomp, Hsav. simpl.
  unfold cleanup_returns in Hc. split_andb. use_outcomes. reflexivity.
Qed.

Lemma texture_failure_reported_as_save_failure_witness :
  session_starts unmappable true = true
  /\ cleanup_returns unmappable = true
  /\ first_check_lag unmappable < timeout
  /\ arrivals (window unmappable 0) = [unmappable_frame]
  /\ texture_failure unmappable_frame = Some E_FAIL
  /\ E_FAIL <> E_OUTOFMEMORY
  /\ result_of (InternalCapture unmappable [] true true) = Val FileSaveFailed.
Proof.
  do 5 (split; [reflexivity|]). split; [discriminate|].
  apply (texture_failure_reported_as_save_failure
           unmappable [] true true unmappable_frame E_FAIL);
    first [reflexivity | discriminate].
Defined.

(** ** The DLL boundary *)

(** C7: for a null and for an empty output path, [CaptureScreen] and
    [CaptureScreenWithOptions] return [SC_INVALID_PARAMETER] with an
    empty trace: no platform call at all was made, not even the
    apartment initialisation of the [ScreenCapture] constructor. *)
Theorem invalid_path_rejected P hideBorder hideCursor :
  CaptureScreenWithOptions P None hideBorder hideCursor
  = (Val SC_INVALID_PARAMETER, [])
  /\ CaptureScreenWithOptions P (Some []) hideBorder hideCursor
     = (Val SC_INVALID_PARAMETER, [])
  /\ CaptureScreen P None = (Val SC_INVALID_PARAMETER, [])
  /\ CaptureScreen P (Some []) = (Val SC_INVALID_PARAMETER, []).
Proof. repeat split; reflexivity. Qed.

Lemma ScreenCapture_ctor_returns P :
  ScreenCapture_ctor P = (Val tt, [(init_apartment, on_init_apartment P)]).
Proof.
  unfold ScreenCapture_ctor. destruct (on_init_apartment P); reflexivity.
Qed.

(** Conversely, a call with a non-empty path goes on to the core: its
    first platform call is the apartment initialisation. *)
Lemma valid_path_reaches_core P c path hideBorder hideCursor :
  exists t, trace_of (CaptureScreenWithOptions P (Some (c :: path))
                        hideBorder hideCursor)
            = (init_apartment, on_init_apartment P) :: t.
Proof.
  unfold CaptureScreenWithOptions, mbind, Exec_bind.
  cbn [wcslen length Nat.eqb].
  rewrite ScreenCapture_ctor_returns, bind_val.
  destruct (bind _ _) as [[r|e|] t]; cbn; eexists; reflexivity.
Qed.

Lemma to_unsigned_int_small n : n < 2 ^ 32 -> to_unsigned_int n = n.
Proof. intros H. unfold to_unsigned_int. apply N.mod_small. exact H. Qed.

(** C8, as amended: when either out-pointer is null the call returns
    [SC_INVALID_PARAMETER] and writes through neither.  For a call with
    both out-pointers non-null in which the allocation of the caller's
    buffer does not fail: if the result is success and the output
    buffer is not null, the core captured an image, the buffer is the
    new block, the reported size is the byte length of the image as an
    [unsigned int], and for an image of fewer than 2^32 bytes it is that
    length and the block holds the image; if the result is not success,
    the output buffer is null, the size is zero and the heap is as
    before. *)
Theorem memory_capture_contract
    (CaptureToMemory : bool -> bool -> MemoryCaptureAnswer)
    (outputBuffer : option Ptr) (bufferSize : option N)
    (hideBorder hideCursor : Z) (a : Ptr) (h : Heap) :
  let answer := CaptureToMemory (negb (hideBorder =? 0)%Z)
                                (negb (hideCursor =? 0)%Z) in
  let r := CaptureScreenToMemory CaptureToMemory outputBuffer bufferSize
             hideBorder hideCursor a h in
  (outputBuffer = None \/ bufferSize = None ->
   mc_result r = SC_INVALID_PARAMETER
   /\ mc_outputBuffer r = outputBuffer /\ mc_bufferSize r = bufferSize
   /\ mc_heap r = h)
  /\ (is_Some outputBuffer -> is_Some bufferSize -> a <> NULL ->
      (mc_result r = SC_SUCCESS -> mc_outputBuffer r <> Some NULL ->
       exists png,
         answer = Captured Success png
         /\ mc_outputBuffer r = Some a
         /\ mc_bufferSize r = Some (to_unsigned_int (N.of_nat (length png)))
         /\ (N.of_nat (length png) < 2 ^ 32 ->
             mc_bufferSize r = Some (N.of_nat (length png))
             /\ mc_heap r !! a = Some png))
      /\ (mc_result r <> SC_SUCCESS ->
          mc_outputBuffer r = Some NULL /\ mc_bufferSize r = Some 0
          /\ mc_heap r = h)).
Proof.
  intros answer r. subst answer r. unfold CaptureScreenToMemory. split.
  { intros [-> | ->]; [|destruct outputBuffer]; repeat split; reflexivity. }
  intros [v ->] [w ->] Ha.
  destruct (CaptureToMemory _ _) as [code png|e].
  2: { cbn. split; [intros; discriminate | auto]. }
  destruct (bool_decide (code = Success)) eqn:Hcode; cbn [andb].
  2: { apply bool_decide_eq_false in Hcode. cbn. split; [|auto].
       intros _ H. contradiction H. reflexivity. }
  apply bool_decide_eq_true in Hcode. subst code.
  destruct (length png =? 0)%nat eqn:Hlen; cbn [negb].
  { cbn. split; [|intros H; contradiction H; reflexivity].
    intros _ H. contradiction H. reflexivity. }
  unfold malloc. apply N.eqb_neq in Ha. rewrite Ha. cbn. rewrite Ha. cbn.
  split; [|intros H; contradiction H; reflexivity].
  intros _ _. exists png. do 3 (split; [reflexivity|]).
  intros Hsmall. rewrite (to_unsigned_int_small _ Hsmall).
  split; [reflexivity|]. unfold memcpy.
  rewrite lookup_insert_eq, Nat2N.id, firstn_all. reflexivity.
Qed.

Lemma memory_capture_contract_witness :
  8192 <> NULL
  /\ mc_result (CaptureScreenToMemory captures_signature
                  (Some 0) (Some 0) 1 1 8192 ∅) = SC_SUCCESS
  /\ mc_outputBuffer (CaptureScreenToMemory captures_signature
                        (Some 0) (Some 0) 1 1 8192 ∅) = Some 8192
  /\ mc_bufferSize (CaptureScreenToMemory captures_signature
                      (Some 0) (Some 0) 1 1 8192 ∅) = Some 8
  /\ mc_heap (CaptureScreenToMemory captures_signature
                (Some 0) (Some 0) 1 1 8192 ∅) !! 8192 = Some png_signature.
Proof.
  assert (8192 <> NULL) as Ha by discriminate.
  split; [exact Ha|]. split; [reflexivity|].
  destruct (memory_capture_contract captures_signature
              (Some 0) (Some 0) 1 1 8192 ∅) as [_ Hvalid].
  destruct Hvalid as [Hok _]; [eexists; reflexivity..| exact Ha |].
  destruct Hok as (png & Hpng & Hbuf & _ & Hsmall);
    [reflexivity | discriminate |].
  injection Hpng as <-.
  destruct Hsmall as [Hsize Hblock]; [reflexivity|].
  split; [exact Hbuf|]. split; [exact Hsize | exact Hblock].
Defined.

(** C8, as stated, fails: with a valid [outputBuffer] and a null
    [bufferSize] the call returns [SC_INVALID_PARAMETER] and writes
    nothing, so the caller's buffer pointer keeps the value it had. *)
Lemma null_size_pointer_leaves_buffer_unset :
  let r := CaptureScreenToMemory captures_signature
             (Some 4096) None 1 1 8192 ∅ in
  mc_result r = SC_INVALID_PARAMETER
  /\ mc_outputBuffer r = Some 4096
  /\ ~ memory_contract png_signature r.
Proof.
  cbn. split; [reflexivity|]. split; [reflexivity|].
  intros [_ H]. destruct H as [H _]; [discriminate|]. discriminate H.
Qed.

(** Two more paths leave a state outside [memory_contract]: a failed
    [malloc] returns [SC_UNKNOWN_ERROR] with the size still set, and a
    core success with an empty vector is passed on as [SC_SUCCESS]
    with a null buffer. *)
Lemma allocation_failure_keeps_size :
  let r := CaptureScreenToMemory captures_signature
             (Some 0) (Some 0) 1 1 NULL ∅ in
  mc_result r = SC_UNKNOWN_ERROR
  /\ mc_outputBuffer r = Some NULL
  /\ mc_bufferSize r = Some 8.
Proof. cbn. repeat split; reflexivity. Qed.

Lemma empty_capture_passes_as_success :
  let r := CaptureScreenToMemory (fun _ _ => Captured Success [])
             (Some 0) (Some 0) 1 1 8192 ∅ in
  mc_result r = SC_SUCCESS
  /\ mc_outputBuffer r = Some NULL
  /\ mc_bufferSize r = Some 0.
Proof. cbn. repeat split; reflexivity. Qed.

(** C9: [GetErrorDescription] gives a text that is not empty for every
    integer, and the default text for every integer that is the value of
    no enumerator. *)
Theorem GetErrorDescription_total :
  (forall code : Z, GetErrorDescription code <> ""%string)
  /\ (forall code : Z,
        (forall r, ScreenCaptureResult_value r <> code) ->
        GetErrorDescription code = "Unknown error occurred"%string).
Proof.
  split.
  - intros code. unfold GetErrorDescription.
    repeat match goal with
           | |- context [match ?x with _ => _ end] => destruct x
           end; discriminate.
  - intros code H.
    assert (code <> 0 /\ code <> 1 /\ code <> 2 /\ code <> 3 /\ code <> 4
            /\ code <> 5 /\ code <> 6 /\ code <> 97 /\ code <> 98)%Z
      as (H0 & H1 & H2 & H3 & H4 & H5 & H6 & H97 & H98).
    { repeat split; intros ->.
      - apply (H SC_SUCCESS); reflexivity.
      - apply (H SC_INITIALIZATION_FAILED); reflexivity.
      - apply (H SC_CAPTURE_ITEM_CREATION_FAILED); reflexivity.
      - apply (H SC_CAPTURE_SESSION_FAILED); reflexivity.
      - apply (H SC_TEXTURE_PROCESSING_FAILED); reflexivity.
      - apply (H SC_FILE_SAVE_FAILED); reflexivity.
      - apply (H SC_TIMEOUT_ERROR); reflexivity.
      - apply (H SC_INVALID_PARAMETER); reflexivity.
      - apply (H SC_NOT_IMPLEMENTED); reflexivity. }
    unfold GetErrorDescription.
    repeat match goal with
           | |- context [match ?x with _ => _ end] => destruct x
           end; try reflexivity; congruence.
Qed.

(** Each enumerator has the text the header documents for it. *)
Lemma GetErrorDescription_of_timeout :
  GetErrorDescription (ScreenCaptureResult_value SC_TIMEOUT_ERROR)
  = "Timeout waiting for frame capture"%string
  /\ GetErrorDescription 1234 = "Unknown error occurred"%string
  /\ GetErrorDescription (-1) = "Unknown error occurred"%string.
Proof. repeat split; reflexivity. Qed.

(** C10: [FreeBuffer] on a null pointer returns normally and leaves
    every block of the heap in place. *)
Theorem FreeBuffer_null_is_noop (h : Heap) : FreeBuffer NULL h = Some h.
Proof. reflexivity. Qed.

(** On the block a capture allocated, it gives the heap back. *)
Lemma FreeBuffer_releases (buffer : Ptr) (block : list Byte.byte) (h : Heap) :
  buffer <> NULL -> h !! buffer = None ->
  FreeBuffer buffer (<[buffer := block]> h) = Some h.
Proof.
  intros Hb Hfresh. unfold FreeBuffer, free.
  apply N.eqb_neq in Hb. rewrite Hb. cbn [negb].
  rewrite lookup_insert_eq, delete_insert_eq. f_equal.
  apply delete_id. exact Hfresh.
Qed.

(** ** Further properties of the capture core *)

(** X1: the codes of [InternalCapture].  The wait always ends, and a
    code the call returns is one of [Success], [FileSaveFailed],
    [TimeoutError], [CaptureSessionFailed] and [UnknownError]: no path
    returns [InitializationFailed], [CaptureItemCreationFailed] or
    [TextureProcessingFailed]. *)
Theorem InternalCapture_result_codes P outputPath hideBorder hideCursor :
  let run := InternalCapture P outputPath hideBorder hideCursor in
  result_of run <> Hang
  /\ forall c, result_of run = Val c ->
       c = Success \/ c = FileSaveFailed \/ c = TimeoutError
       \/ c = CaptureSessionFailed \/ c = UnknownError.
Proof.
  cbv zeta. split.
  - destruct (InternalCapture_returns P outputPath hideBorder hideCursor)
      as [c ->]. discriminate.
  - intros c Hc.
    apply (InternalCapture_codes poll_budget P outputPath
             hideBorder hideCursor c Hc).
Qed.

Lemma timeout_skips_cleanup_witness :
  session_starts silent true = true
  /\ no_notification silent
  /\ session_created (trace_of (InternalCapture silent [] true true))
  /\ ~ session_closed (trace_of (InternalCapture silent [] true true))
  /\ ~ pool_closed (trace_of (InternalCapture silent [] true true)).
Proof.
  split; [reflexivity|]. split; [split; [reflexivity | intros i; reflexivity]|].
  apply (timeout_skips_cleanup silent [] true true).
  - reflexivity.
  - split; [reflexivity | intros i; reflexivity].
Defined.

Lemma failed_start_skips_cleanup_witness :
  session_starts start_refused true = false
  /\ (result_of (InternalCapture start_refused [] true true)
      = Val CaptureSessionFailed
      \/ result_of (InternalCapture start_refused [] true true)
         = Val UnknownError)
  /\ ~ session_closed (trace_of (InternalCapture start_refused [] true true))
  /\ ~ pool_closed (trace_of (InternalCapture start_refused [] true true)).
Proof.
  split; [reflexivity|].
  apply (failed_start_skips_cleanup start_refused [] true true). reflexivity.
Defined.

(** X5: in a run that reaches the wait, [TimeoutError] is returned
    exactly when no handler signalled completion in the turns made, and
    then only at a test where 10 s have elapsed.  A frame whose handler
    completes in the very turn that crosses the 10 s is still
    honoured. *)
Theorem timeout_iff_no_frame P outputPath hideBorder hideCursor :
  session_starts P hideCursor = true ->
  let run := InternalCapture P outputPath hideBorder hideCursor in
  (result_of run = Val TimeoutError <-> frame_received P run = false)
  /\ (result_of run = Val TimeoutError ->
      timeout <= check_time P (turns_of run)).
Proof.
  intros Hs run.
  destruct (InternalCapture_concludes P outputPath hideBorder _ Hs)
    as ([t Heq] & Hexit & _).
  fold run in Heq, Hexit. clearbody run. unfold frame_received in *.
  set (n := turns_of run) in *. clearbody n. subst run.
  unfold conclude.
  destruct (existsb completes (handled P n)) eqn:Hc.
  - destruct (on_Session_Close P) as [|e1];
      [destruct (on_FramePool_Close P) as [|e2]|]; cbn;
      try destruct (existsb saves (handled P n));
      try destruct e1; try destruct e2; cbn;
      (split; [split; intros; discriminate | intros; discriminate]).
  - cbn. split; [split; reflexivity|]. intros _.
    destruct Hexit as [H|H]; [discriminate | exact H].
Qed.

Lemma timeout_iff_no_frame_witness :
  session_starts silent true = true
  /\ (result_of (InternalCapture silent [] true true) = Val TimeoutError
      <-> frame_received silent (InternalCapture silent [] true true) = false)
  /\ (result_of (InternalCapture silent [] true true) = Val TimeoutError ->
      timeout <= check_time silent
                   (turns_of (InternalCapture silent [] true true))).
Proof.
  split; [reflexivity|].
  apply (timeout_iff_no_frame silent [] true true). reflexivity.
Defined.

(** X6: in a run that reaches the wait, the loop makes exactly as many
    turns as it takes to reach the first test at which a handler has
    signalled completion or 10 s have elapsed: none when the frame was
    handled before the waiter took the lock. *)
Theorem wait_ends_at_first_exit P outputPath hideBorder hideCursor n :
  session_starts P hideCursor = true ->
  loop_ends P n ->
  (forall k, (k < n)%nat -> ~ loop_ends P k) ->
  turns_of (InternalCapture P outputPath hideBorder hideCursor) = n.
Proof.
  intros Hs Hn Hbefore.
  destruct (InternalCapture_concludes P outputPath hideBorder _ Hs)
    as (_ & Hexit & Hrun).
  unfold frame_received in Hexit.
  set (m := turns_of _) in *. clearbody m.
  destruct (Nat.lt_trichotomy m n) as [Hlt|[Heq|Hgt]]; [|exact Heq|].
  - exfalso. apply (Hbefore m Hlt). exact Hexit.
  - exfalso. destruct (Hrun n Hgt) as [Ht Hf].
    destruct Hn as [Hn|Hn]; [congruence | lia].
Qed.

Lemma wait_ends_at_first_exit_witness :
  session_starts nominal true = true
  /\ loop_ends nominal 2
  /\ turns_of (InternalCapture nominal [] true true) = 2%nat
  /\ turns_of (InternalCapture
                 (with_early_arrivals nominal [good_frame]) [] true true)
     = 0%nat.
Proof.
  split; [reflexivity|]. split; [left; reflexivity|]. split.
  - apply (wait_ends_at_first_exit nominal [] true true 2).
    + reflexivity.
    + left. reflexivity.
    + intros k Hk [H|H].
      * destruct k as [|[|k]]; [discriminate H | discriminate H | lia].
      * destruct k as [|[|k]]; [| |lia];
          apply N.leb_le in H; discriminate H.
  - apply (wait_ends_at_first_exit
             (with_early_arrivals nominal [good_frame]) [] true true 0).
    + reflexivity.
    + left. reflexivity.
    + intros k Hk. lia.
Defined.

(** *** The calls an invocation makes *)

Section CallsKept.

Variable Q : PlatformCall * Outcome -> Prop.

Lemma kept_bind {A B} (m : Exec A) (k : A -> Exec B) :
  Forall Q (trace_of m) -> (forall a, Forall Q (trace_of (k a))) ->
  Forall Q (trace_of (bind m k)).
Proof.
  intros Hm Hk. destruct m as [[a|e|] t]; cbn in *; try exact Hm.
  specialize (Hk a). destruct (k a) as [r t']. cbn in *.
  apply Forall_app. auto.
Qed.

Lemma kept_try_catch_all {A} (m h : Exec A) :
  Forall Q (trace_of m) -> Forall Q (trace_of h) ->
  Forall Q (trace_of (try_catch_all m h)).
Proof.
  intros Hm Hh. destruct m as [[a|e|] t], h as [r t']; cbn in *;
    try exact Hm. apply Forall_app. auto.
Qed.

Lemma kept_try_catch_hresult {A} (m h : Exec A) :
  Forall Q (trace_of m) -> Forall Q (trace_of h) ->
  Forall Q (trace_of (try_catch_hresult m h)).
Proof.
  intros Hm Hh. destruct m as [[a|[]|] t], h as [r t']; cbn in *;
    try exact Hm. apply Forall_app. auto.
Qed.

Lemma kept_call (c : PlatformCall) (o : Outcome) :
  Q (c, o) -> Forall Q (trace_of (call c o)).
Proof. intros H. cbn. auto. Qed.

Lemma kept_ret {A} (a : A) : Forall Q (trace_of (mret a : Exec A)).
Proof. cbn. constructor. Qed.

Lemma kept_throw {A} (e : Exception) : Forall Q (trace_of (@throw A e)).
Proof. cbn. constructor. Qed.

End CallsKept.

Ltac keep_calls leaf :=
  unfold mbind, Exec_bind, check_hresult;
  repeat first
    [ apply kept_ret
    | apply kept_throw
    | apply kept_bind; [|intros ?]
    | apply kept_try_catch_all
    | apply kept_try_catch_hresult
    | apply kept_call; cbn; leaf
    | match goal with
      | |- context [if ?b then _ else _] => destruct b
      | |- context [match ?o with Returns => _ | Raises _ => _ end] =>
          destruct o
      end ].

Lemma handler_calls_allowed outputPath hideBorder hideCursor evs : forall s,
  only_allowed outputPath hideBorder hideCursor
    (trace_of (deliver outputPath evs s)).
Proof.
  unfold only_allowed.
  induction evs as [|ev evs IH]; intros s; cbn [deliver].
  - apply kept_ret.
  - unfold mbind, Exec_bind. apply kept_bind; [|intros s'; apply IH].
    unfold invoke_handler, FrameArrived_handler.
    keep_calls ltac:(first [ reflexivity
                           | apply bool_decide_eq_true; reflexivity ]).
Qed.

Lemma wait_calls_allowed outputPath hideBorder hideCursor P fuel :
  forall i elapsed s,
  only_allowed outputPath hideBorder hideCursor
    (trace_of (wait_loop fuel P outputPath i elapsed s)).
Proof.
  unfold only_allowed.
  induction fuel as [|fuel IH]; intros i elapsed s; cbn [wait_loop];
    destruct (negb (frameReceived s) && (elapsed <? timeout));
    try apply kept_ret; [constructor|].
  unfold mbind, Exec_bind.
  apply kept_bind; [apply kept_call; reflexivity | intros _].
  apply kept_bind; [apply handler_calls_allowed | intros s'].
  apply kept_bind; [apply kept_call; reflexivity | intros _]. apply IH.
Qed.

(** X7: whatever the platform does, an invocation sets a visibility
    toggle only when its option asks for it and only to switch the
    cursor or the border off, writes no file but the output path it was
    given, and never initialises the apartment. *)
Theorem calls_are_allowed P outputPath hideBorder hideCursor :
  only_allowed outputPath hideBorder hideCursor
    (trace_of (InternalCapture P outputPath hideBorder hideCursor)).
Proof.
  unfold InternalCapture. rewrite InternalCapture_n_catch.
  assert (only_allowed outputPath hideBorder hideCursor
            (trace_of (InternalCapture_body poll_budget P outputPath
                         hideBorder hideCursor))) as H.
  { unfold only_allowed, InternalCapture_body, mbind, Exec_bind.
    apply kept_bind.
    { unfold start_session, CreateD3DDevice,
        CreateDirect3DDeviceFromD3D11Device, CreateCaptureItemForMonitor.
      destruct hideBorder, hideCursor; keep_calls ltac:(reflexivity). }
    intros _. apply kept_bind.
    { unfold wait_for_frame, mbind, Exec_bind.
      apply kept_bind; [apply handler_calls_allowed | intros s0].
      apply wait_calls_allowed. }
    intros s. destruct (frameReceived s); keep_calls ltac:(reflexivity). }
  destruct (InternalCapture_body _ _ _ _ _) as [[c|e|] t]; exact H.
Qed.

(** ** Further properties of the DLL boundary *)

Lemma InternalCapture_val P outputPath hideBorder hideCursor :
  exists c t, InternalCapture P outputPath hideBorder hideCursor = (Val c, t).
Proof.
  destruct (InternalCapture_returns P outputPath hideBorder hideCursor)
    as [c Hc].
  destruct (InternalCapture P outputPath hideBorder hideCursor) as [r t].
  cbn [result_of fst] in Hc. subst r. eauto.
Qed.

(** X8: [ConvertErrorCode] keeps the integer value of every core code,
    and sends different core codes to different DLL codes. *)
Theorem ConvertErrorCode_keeps_value :
  (forall e, ScreenCaptureResult_value (ConvertErrorCode e)
             = ErrorCode_value e)
  /\ (forall e1 e2, ConvertErrorCode e1 = ConvertErrorCode e2 -> e1 = e2).
Proof.
  split.
  - intros []; reflexivity.
  - intros [] []; cbn; intros H; first [reflexivity | discriminate H].
Qed.

Lemma export_run P c0 path hideBorder hideCursor c t :
  InternalCapture P (c0 :: path)
    (negb (hideBorder =? 0)%Z) (negb (hideCursor =? 0)%Z) = (Val c, t) ->
  CaptureScreenWithOptions P (Some (c0 :: path)) hideBorder hideCursor
  = (Val (ConvertErrorCode c),
     (init_apartment, on_init_apartment P) :: t).
Proof.
  intros Hrun.
  unfold CaptureScreenWithOptions, CaptureToFile, mbind, Exec_bind.
  cbn [wcslen length Nat.eqb].
  rewrite ScreenCapture_ctor_returns, bind_val, Hrun. cbn.
  rewrite app_nil_r. reflexivity.
Qed.

(** X9: for a non-empty path, [CaptureScreenWithOptions] returns one
    of [SC_SUCCESS], [SC_FILE_SAVE_FAILED], [SC_TIMEOUT_ERROR],
    [SC_CAPTURE_SESSION_FAILED] and [SC_UNKNOWN_ERROR]; and whenever
    the code is not [SC_UNKNOWN_ERROR], the apartment was initialised
    (a failure there is ignored), the core capture ran on that path
    with each option set exactly when its integer is not zero, and the
    code is the core's code converted. *)
Theorem export_result_comes_from_core P c0 path hideBorder hideCursor :
  exists r t',
    CaptureScreenWithOptions P (Some (c0 :: path)) hideBorder hideCursor
    = (Val r, t')
    /\ (r = SC_SUCCESS \/ r = SC_FILE_SAVE_FAILED \/ r = SC_TIMEOUT_ERROR
        \/ r = SC_CAPTURE_SESSION_FAILED \/ r = SC_UNKNOWN_ERROR)
    /\ (r <> SC_UNKNOWN_ERROR ->
        exists c t,
          InternalCapture P (c0 :: path)
            (negb (hideBorder =? 0)%Z) (negb (hideCursor =? 0)%Z)
          = (Val c, t)
          /\ r = ConvertErrorCode c
          /\ t' = (init_apartment, on_init_apartment P) :: t).
Proof.
  destruct (InternalCapture_val P (c0 :: path)
              (negb (hideBorder =? 0)%Z) (negb (hideCursor =? 0)%Z))
    as (c & t & Hrun).
  exists (ConvertErrorCode c), ((init_apartment, on_init_apartment P) :: t).
  split; [apply export_run; exact Hrun|]. split.
  - pose proof (InternalCapture_codes poll_budget P (c0 :: path)
                  (negb (hideBorder =? 0)%Z) (negb (hideCursor =? 0)%Z) c)
      as Hc.
    fold InternalCapture in Hc. rewrite Hrun in Hc.
    destruct (Hc eq_refl) as [->|[->|[->|[->| ->]]]]; cbn; auto.
  - intros _. exists c, t. auto.
Qed.

(** X10: after a successful memory capture into a fresh block,
    [FreeBuffer] on the returned buffer gives back the heap as it was
    before the call; freeing that pointer once more is outside what
    [free] defines. *)
Theorem buffer_round_trip
    (CaptureToMemory : bool -> bool -> MemoryCaptureAnswer)
    (v : Ptr) (w : N) (hideBorder hideCursor : Z) (a : Ptr) (h : Heap)
    (p : Ptr) :
  h !! a = None ->
  let r := CaptureScreenToMemory CaptureToMemory (Some v) (Some w)
             hideBorder hideCursor a h in
  mc_result r = SC_SUCCESS ->
  mc_outputBuffer r = Some p ->
  p <> NULL ->
  FreeBuffer p (mc_heap r) = Some h /\ FreeBuffer p h = None.
Proof.
  intros Hfresh r. subst r. unfold CaptureScreenToMemory.
  destruct (CaptureToMemory _ _) as [code png|e]; [|discriminate].
  destruct (bool_decide (code = Success) && negb (length png =? 0)%nat).
  2: { cbn. intros _ [= <-] H. contradiction H. reflexivity. }
  unfold malloc. destruct (a =? NULL) eqn:Ha; cbn; rewrite ?Ha; cbn;
    [discriminate|].
  intros _ [= <-] Hp. unfold memcpy.
  rewrite insert_insert_eq. split.
  - apply FreeBuffer_releases; assumption.
  - unfold FreeBuffer, free. rewrite Ha, Hfresh. reflexivity.
Qed.

Lemma buffer_round_trip_witness :
  (∅ : Heap) !! 8192 = None
  /\ FreeBuffer 8192
       (mc_heap (CaptureScreenToMemory captures_signature
                   (Some 0) (Some 0) 1 1 8192 ∅)) = Some ∅
  /\ FreeBuffer 8192 (∅ : Heap) = None.
Proof.
  split; [reflexivity|].
  apply (buffer_round_trip captures_signature 0 0 1 1 8192 ∅ 8192);
    [reflexivity | reflexivity | reflexivity | discriminate].
Defined.

(** X11: whatever its arguments and whatever the core and [malloc]
    answer, [CaptureScreenToMemory] leaves the heap as it was or adds
    the one block [malloc] gave: it frees nothing and writes to no
    other block. *)
Theorem memory_capture_frame
    (CaptureToMemory : bool -> bool -> MemoryCaptureAnswer)
    (outputBuffer : option Ptr) (bufferSize : option N)
    (hideBorder hideCursor : Z) (a : Ptr) (h : Heap) :
  let r := CaptureScreenToMemory CaptureToMemory outputBuffer bufferSize
             hideBorder hideCursor a h in
  mc_heap r = h
  \/ (a <> NULL /\ exists block, mc_heap r = <[a := block]> h).
Proof.
  cbv zeta. unfold CaptureScreenToMemory.
  destruct outputBuffer, bufferSize; try (left; reflexivity).
  destruct (CaptureToMemory _ _) as [code png|e]; [|left; reflexivity].
  destruct (bool_decide (code = Success) && negb (length png =? 0)%nat);
    [|left; reflexivity].
  unfold malloc. destruct (a =? NULL) eqn:Ha; cbn; rewrite ?Ha; cbn;
    [left; reflexivity|].
  right. apply N.eqb_neq in Ha. split; [exact Ha|].
  unfold memcpy. rewrite insert_insert_eq. eauto.
Qed.

(** X12: the ten enumerators have ten different descriptions. *)
Theorem descriptions_tell_codes_apart r1 r2 :
  GetErrorDescription (ScreenCaptureResult_value r1)
  = GetErrorDescription (ScreenCaptureResult_value r2) ->
  r1 = r2.
Proof.
  destruct r1, r2; cbn; intros H; first [reflexivity | discriminate H].
Qed.

Lemma descriptions_tell_codes_apart_witness :
  GetErrorDescription (ScreenCaptureResult_value SC_TIMEOUT_ERROR)
  = GetErrorDescription 6
  /\ SC_TIMEOUT_ERROR = SC_TIMEOUT_ERROR.
Proof.
  split; [reflexivity|].
  apply (descriptions_tell_codes_apart SC_TIMEOUT_ERROR SC_TIMEOUT_ERROR).
  reflexivity.
Defined.

(** ** The console application *)

Lemma wstring_eqb_eq (a b : wstring) :
  ConsoleApp.wstring_eqb a b = true <-> a = b.
Proof.
  revert b. induction a as [|x a IH]; intros [|y b]; cbn;
    try (split; [discriminate | discriminate]); [split; reflexivity|].
  rewrite andb_true_iff, N.eqb_eq, IH. split.
  - intros [-> ->]. reflexivity.
  - intros [= -> ->]. auto.
Qed.

Lemma flag_is_no_help (a : wstring) :
  is_flag a = true -> ConsoleApp.is_help a = false.
Proof.
  unfold is_flag. rewrite !orb_true_iff, !wstring_eqb_eq.
  intros [[[-> | ->] | ->] | ->]; reflexivity.
Qed.

Lemma parse_args_spec (pre : list wstring) (p : wstring)
    (rest : list wstring) : forall o,
  Forall (fun a => is_flag a = true) pre ->
  is_flag p = false ->
  ConsoleApp.parse_args (pre ++ p :: rest) o = options_after pre p o.
Proof.
  induction pre as [|a pre IH]; intros o Hpre Hp.
  - cbn [app ConsoleApp.parse_args]. unfold is_flag in Hp.
    apply orb_false_iff in Hp as [Hp H4].
    apply orb_false_iff in Hp as [Hp H3].
    rewrite Hp, H3, H4. unfold options_after. destruct o; cbn.
    rewrite orb_false_r, !andb_true_r. reflexivity.
  - inversion Hpre as [|? ? Ha Hpre']; subst.
    cbn [app ConsoleApp.parse_args]. unfold options_after.
    cbn [existsb]. unfold is_verbose_flag at 1.
    destruct (ConsoleApp.wstring_eqb a (ConsoleApp.L "--verbose")
              || ConsoleApp.wstring_eqb a (ConsoleApp.L "-v")) eqn:Hv.
    { rewrite (IH _ Hpre' Hp). unfold options_after. cbn.
      apply orb_true_iff in Hv. rewrite !wstring_eqb_eq in Hv.
      destruct Hv as [-> | ->]; cbn; rewrite orb_true_r; reflexivity. }
    destruct (ConsoleApp.wstring_eqb a (ConsoleApp.L "--show-border"))
      eqn:Hb.
    { rewrite (IH _ Hpre' Hp). unfold options_after. cbn.
      apply wstring_eqb_eq in Hb. subst a. cbn.
      rewrite andb_false_r. reflexivity. }
    destruct (ConsoleApp.wstring_eqb a (ConsoleApp.L "--show-cursor"))
      eqn:Hc.
    { rewrite (IH _ Hpre' Hp). unfold options_after. cbn.
      apply wstring_eqb_eq in Hc. subst a. cbn.
      rewrite andb_false_r. reflexivity. }
    unfold is_flag in Ha. rewrite Hv, Hb, Hc in Ha. discriminate Ha.
Qed.

Lemma ParseCommandLine_flags_then_path fs prog pre p rest o :
  Forall (fun a => is_flag a = true) pre ->
  is_flag p = false ->
  ConsoleApp.ParseCommandLine fs (prog :: pre ++ p :: rest) o
  = let o1 := {| ConsoleApp.o_verboseMode := false;
                 ConsoleApp.o_outputPath := ConsoleApp.o_outputPath o;
                 ConsoleApp.o_hideBorder := true;
                 ConsoleApp.o_hideCursor := true |} in
    if ConsoleApp.is_help (hd p pre) then (false, o1, [ConsoleApp.ShowUsage])
    else
      let o2 := options_after pre p o1 in
      match p with
      | [] => (false, o2,
               ConsoleApp.when (ConsoleApp.o_verboseMode o2)
                 ConsoleApp.wcerr_OutputPathRequired)
      | _ :: _ => (fst (ConsoleApp.validate_path fs o2), o2,
                   snd (ConsoleApp.validate_path fs o2))
      end.
Proof.
  intros Hpre Hp. cbv zeta. unfold ConsoleApp.ParseCommandLine.
  assert (exists a0 rest', pre ++ p :: rest = a0 :: rest'
                           /\ a0 = hd p pre) as (a0 & rest' & Heq & Ha0).
  { destruct pre as [|a pre']; cbn; eauto. }
  rewrite Heq, <- Ha0. destruct (ConsoleApp.is_help a0); [reflexivity|].
  rewrite <- Heq, (parse_args_spec pre p rest _ Hpre Hp).
  cbn [options_after ConsoleApp.o_outputPath].
  destruct p; [reflexivity|].
  destruct (ConsoleApp.validate_path fs _); reflexivity.
Qed.

(** X13: the argument parser stops at the first argument that is no
    flag: whatever follows the output path on the command line, flags
    included, changes neither what [ParseCommandLine] returns nor what
    [wmain] does. *)
Theorem arguments_after_path_are_ignored fs P prog pre p rest o :
  Forall (fun a => is_flag a = true) pre ->
  is_flag p = false ->
  ConsoleApp.ParseCommandLine fs (prog :: pre ++ p :: rest) o
  = ConsoleApp.ParseCommandLine fs (prog :: pre ++ [p]) o
  /\ ConsoleApp.wmain fs P (prog :: pre ++ p :: rest)
     = ConsoleApp.wmain fs P (prog :: pre ++ [p]).
Proof.
  intros Hpre Hp.
  assert (forall o', ConsoleApp.ParseCommandLine fs (prog :: pre ++ p :: rest) o'
          = ConsoleApp.ParseCommandLine fs (prog :: pre ++ [p]) o') as Hsame.
  { intros o'. rewrite !ParseCommandLine_flags_then_path by assumption.
    reflexivity. }
  split; [apply Hsame|].
  unfold ConsoleApp.wmain. rewrite Hsame.
  destruct (ConsoleApp.ParseCommandLine fs (prog :: pre ++ [p]) _)
    as [[ok o'] acts].
  destruct pre; reflexivity.
Qed.

Lemma arguments_after_path_are_ignored_witness :
  is_flag (ConsoleApp.L "out.png") = false
  /\ ConsoleApp.ParseCommandLine plain_fs
       [ConsoleApp.L "app"; ConsoleApp.L "--show-cursor";
        ConsoleApp.L "out.png"; ConsoleApp.L "--verbose"] initial_options
     = ConsoleApp.ParseCommandLine plain_fs
         [ConsoleApp.L "app"; ConsoleApp.L "--show-cursor";
          ConsoleApp.L "out.png"] initial_options
  /\ ConsoleApp.wmain plain_fs nominal
       [ConsoleApp.L "app"; ConsoleApp.L "--show-cursor";
        ConsoleApp.L "out.png"; ConsoleApp.L "--verbose"]
     = ConsoleApp.wmain plain_fs nominal
         [ConsoleApp.L "app"; ConsoleApp.L "--show-cursor";
          ConsoleApp.L "out.png"].
Proof.
  split; [reflexivity|].
  apply (arguments_after_path_are_ignored plain_fs nominal
           (ConsoleApp.L "app") [ConsoleApp.L "--show-cursor"]
           (ConsoleApp.L "out.png") [ConsoleApp.L "--verbose"]
           initial_options).
  - repeat constructor.
  - reflexivity.
Defined.

(** X14: when the arguments are flags followed by a non-empty path that
    is no flag (and is no help switch standing first), the
    parser gives that path, verbose mode exactly when [--verbose] or
    [-v] is among the flags, and border and cursor hidden exactly when
    [--show-border], respectively [--show-cursor], is not; order and
    repetition of the flags do not matter.  Whether it returns [true]
    is then up to the check of the parent directory. *)
Theorem flags_then_path_are_parsed fs prog pre (p : wstring) rest :
  Forall (fun a => is_flag a = true) pre ->
  is_flag p = false ->
  p <> [] ->
  (pre = [] -> ConsoleApp.is_help p = false) ->
  let o := options_after pre p initial_options in
  ConsoleApp.ParseCommandLine fs (prog :: pre ++ p :: rest) initial_options
  = (fst (ConsoleApp.validate_path fs o), o,
     snd (ConsoleApp.validate_path fs o))
  /\ ConsoleApp.o_outputPath o = p
  /\ ConsoleApp.o_verboseMode o = existsb is_verbose_flag pre
  /\ ConsoleApp.o_hideBorder o
     = negb (existsb (fun a => ConsoleApp.wstring_eqb a
                                 (ConsoleApp.L "--show-border")) pre)
  /\ ConsoleApp.o_hideCursor o
     = negb (existsb (fun a => ConsoleApp.wstring_eqb a
                                 (ConsoleApp.L "--show-cursor")) pre).
Proof.
  intros Hpre Hp Hne Hfirst o.
  assert (ConsoleApp.is_help (hd p pre) = false) as Hhelp.
  { destruct pre as [|a pre']; [apply Hfirst; reflexivity|].
    inversion Hpre; subst. apply flag_is_no_help. assumption. }
  rewrite (ParseCommandLine_flags_then_path fs prog pre p rest
             initial_options Hpre Hp).
  cbv zeta. rewrite Hhelp.
  destruct p as [|c p]; [congruence|].
  repeat split; reflexivity.
Qed.

Lemma flags_then_path_are_parsed_witness :
  ConsoleApp.ParseCommandLine plain_fs
    [ConsoleApp.L "app"; ConsoleApp.L "--show-cursor"; ConsoleApp.L "-v";
     ConsoleApp.L "--show-cursor"; ConsoleApp.L "--help";
     ConsoleApp.L "--show-border"] initial_options
  = (true,
     {| ConsoleApp.o_verboseMode := true;
        ConsoleApp.o_outputPath := ConsoleApp.L "--help";
        ConsoleApp.o_hideBorder := true;
        ConsoleApp.o_hideCursor := false |}, []).
Proof.
  destruct (flags_then_path_are_parsed plain_fs (ConsoleApp.L "app")
              [ConsoleApp.L "--show-cursor"; ConsoleApp.L "-v";
               ConsoleApp.L "--show-cursor"]
              (ConsoleApp.L "--help") [ConsoleApp.L "--show-border"])
    as [Heq _].
  - repeat constructor.
  - reflexivity.
  - discriminate.
  - discriminate.
  - exact Heq.
Defined.

Lemma parse_args_path (args : list wstring) : forall o,
  ConsoleApp.o_outputPath (ConsoleApp.parse_args args o)
  = ConsoleApp.o_outputPath o
  \/ In (ConsoleApp.o_outputPath (ConsoleApp.parse_args args o)) args.
Proof.
  induction args as [|a args IH]; intros o; cbn [ConsoleApp.parse_args];
    [left; reflexivity|].
  repeat match goal with
         | |- context [if ?b then _ else _] => destruct b
         end.
  1-3: match goal with
       | |- context [ConsoleApp.parse_args _ ?o'] =>
           destruct (IH o') as [H|H];
           [left; rewrite H; reflexivity | right; right; exact H]
       end.
  right. left. reflexivity.
Qed.

(** X15: called as [wmain] calls it, [ParseCommandLine] returns [true]
    only with an output path that is not empty and is one of the
    arguments after the program name. *)
Theorem parsed_path_is_an_argument fs argv :
  fst (fst (ConsoleApp.ParseCommandLine fs argv initial_options)) = true ->
  let path := ConsoleApp.o_outputPath
                (snd (fst (ConsoleApp.ParseCommandLine fs argv
                             initial_options))) in
  path <> [] /\ In path (tl argv).
Proof.
  unfold ConsoleApp.ParseCommandLine.
  destruct argv as [|prog [|a0 rest]]; [discriminate..|].
  destruct (ConsoleApp.is_help a0); [discriminate|]. cbv zeta.
  match goal with
  | |- context [ConsoleApp.parse_args _ ?o1] =>
      pose proof (parse_args_path (a0 :: rest) o1) as H
  end.
  destruct (ConsoleApp.o_outputPath (ConsoleApp.parse_args _ _))
    as [|x path] eqn:Hpath; [discriminate|].
  destruct (ConsoleApp.validate_path fs _). intros _. cbv zeta.
  cbn [fst snd tl]. rewrite Hpath. split; [discriminate|].
  destruct H as [H|H]; [discriminate H | exact H].
Qed.

Lemma parsed_path_is_an_argument_witness :
  fst (fst (ConsoleApp.ParseCommandLine plain_fs
              [ConsoleApp.L "app"; ConsoleApp.L "-v"; ConsoleApp.L "out.png"]
              initial_options)) = true
  /\ ConsoleApp.L "out.png" <> []
  /\ In (ConsoleApp.L "out.png") [ConsoleApp.L "-v"; ConsoleApp.L "out.png"].
Proof.
  split; [reflexivity|].
  apply (parsed_path_is_an_argument plain_fs
           [ConsoleApp.L "app"; ConsoleApp.L "-v"; ConsoleApp.L "out.png"]).
  reflexivity.
Defined.

(** ** The console application: exit codes *)

(** X16: the exit code of the console application.  When the arguments
    are refused no platform call is made and the code is 0 if the first
    argument asks for help and 1 otherwise.  When they are accepted the
    exit code is never 1, so that exit code 1 always means refused
    arguments; and whenever it is not 99 either, the apartment was
    initialised, the core capture ran on the parsed path and options,
    and the exit code is the integer of the core's error code. *)
Theorem console_exit_code fs P argv :
  let parsed := ConsoleApp.ParseCommandLine fs argv initial_options in
  let o := snd (fst parsed) in
  fst (ConsoleApp.wmain fs P argv) = snd parsed
  /\ (fst (fst parsed) = false ->
      snd (ConsoleApp.wmain fs P argv)
      = (Val (if ConsoleApp.is_help (nth 1 argv []) then 0 else 1)%Z, []))
  /\ (fst (fst parsed) = true ->
      exists code t',
        snd (ConsoleApp.wmain fs P argv) = (Val code, t')
        /\ code <> 1%Z
        /\ (code <> 99%Z ->
            exists c t,
              InternalCapture P (ConsoleApp.o_outputPath o)
                (ConsoleApp.o_hideBorder o) (ConsoleApp.o_hideCursor o)
              = (Val c, t)
              /\ code = ErrorCode_value c
              /\ t' = (init_apartment, on_init_apartment P) :: t)).
Proof.
  cbv zeta. unfold ConsoleApp.wmain. fold initial_options.
  destruct (ConsoleApp.ParseCommandLine fs argv initial_options)
    as [[ok o] acts].
  cbn [fst snd]. destruct ok; cbn [negb fst snd].
  - split; [reflexivity|]. split; [discriminate|]. intros _.
    destruct (InternalCapture_val P (ConsoleApp.o_outputPath o)
                (ConsoleApp.o_hideBorder o) (ConsoleApp.o_hideCursor o))
      as (c & t & Hrun).
    exists (ErrorCode_value c), ((init_apartment, on_init_apartment P) :: t).
    split; [|split].
    + unfold CaptureToFile, mbind, Exec_bind.
      rewrite ScreenCapture_ctor_returns, bind_val, Hrun. cbn.
      rewrite app_nil_r. destruct c; reflexivity.
    + pose proof (InternalCapture_codes poll_budget P
                    (ConsoleApp.o_outputPath o) (ConsoleApp.o_hideBorder o)
                    (ConsoleApp.o_hideCursor o) c) as Hc.
      fold InternalCapture in Hc. rewrite Hrun in Hc.
      destruct (Hc eq_refl) as [->|[->|[->|[->| ->]]]]; discriminate.
    + intros _. exists c, t. auto.
  - split; [reflexivity|]. split; [|discriminate]. intros _.
    destruct argv as [|prog [|a1 rest]]; reflexivity.
Qed.

(** ** The C# wrapper *)

(** X17: the managed [Capture] through the DLL to the core.  When the
    path the DLL sees (the code units before the first zero) is empty,
    the call returns 97, [InvalidParameter], with no platform call,
    whether the managed check or the one of the DLL refuses it;
    otherwise the core capture runs on that path with the two booleans
    as given, and the call returns the integer of its error code. *)
Theorem Capture_reaches_core P s hideBorder hideCursor :
  (marshalled s = [] ->
   CSharpWrapper.Capture true P s hideBorder hideCursor = (Val 97%Z, []))
  /\ (marshalled s <> [] ->
      exists c t,
        InternalCapture P (marshalled s) hideBorder hideCursor = (Val c, t)
        /\ CSharpWrapper.Capture true P s hideBorder hideCursor
           = (Val (ErrorCode_value c),
              (init_apartment, on_init_apartment P) :: t)).
Proof.
  unfold CSharpWrapper.Capture, marshalled.
  destruct s as [[|c0 rest]|]; cbn [CSharpWrapper.IsNullOrEmpty];
    try (split; [reflexivity | intros H; contradiction H; reflexivity]).
  cbn [fmap option_fmap option_map CSharpWrapper.marshal_LPWStr].
  destruct (c0 =? 0) eqn:Hc0.
  { split; [reflexivity | intros H; contradiction H; reflexivity]. }
  split; [discriminate|]. intros _.
  destruct (InternalCapture_val P
              (c0 :: CSharpWrapper.marshal_LPWStr rest)
              hideBorder hideCursor) as (c & t & Hrun).
  exists c, t. split; [exact Hrun|].
  assert (CaptureScreenWithOptions P
            (Some (c0 :: CSharpWrapper.marshal_LPWStr rest))
            (if hideBorder then 1 else 0)%Z (if hideCursor then 1 else 0)%Z
          = (Val (ConvertErrorCode c),
             (init_apartment, on_init_apartment P) :: t)) as Hexport.
  { apply export_run. destruct hideBorder, hideCursor; exact Hrun. }
  unfold wstring in *.
  unfold mbind at 1. unfold Exec_bind at 1. rewrite Hexport.
  cbn. rewrite app_nil_r. destruct c; reflexivity.
Qed.

(** ** The first version of the program *)

Lemma CaptureScreenAsync_body_eq fuel P :
  Legacy.CaptureScreenAsync_body fuel P
  = (start_session P false false;;
     wait_for_frame fuel P Legacy.screen_capture_png;;
     call Session_Close (on_Session_Close P);;
     call FramePool_Close (on_FramePool_Close P)).
Proof.
  unfold Legacy.CaptureScreenAsync_body, start_session.
  set (rest := (wait_for_frame fuel P Legacy.screen_capture_png;; _)).
  clearbody rest. destruct rest as [r t].
  unfold CreateD3DDevice, CreateDirect3DDeviceFromD3D11Device,
    CreateCaptureItemForMonitor, check_hresult, check_hresult_outcome,
    hresult_outcome, call.
  ask_platform ltac:(reflexivity).
Qed.

Lemma closing_run P :
  (call Session_Close (on_Session_Close P);;
   call FramePool_Close (on_FramePool_Close P))
  = (closing_result P, closing_calls P).
Proof.
  unfold closing_result, closing_calls, call.
  destruct (on_Session_Close P), (on_FramePool_Close P); reflexivity.
Qed.

Lemma CaptureScreenAsync_body_run P :
  session_starts P false = true ->
  exists t,
    (polls t <= poll_budget)%nat
    /\ (no_notification P -> t = quiet_turns (polls t))
    /\ Legacy.CaptureScreenAsync_body poll_budget P
       = (closing_result P,
          setup_calls P false false ++ t ++ closing_calls P).
Proof.
  intros Hs.
  destruct (wait_for_frame_spec P Legacy.screen_capture_png)
    as (n & t & Hn & Hw & Hp & Hq & _ & _).
  exists t. rewrite Hp. do 2 (split; [assumption|]).
  rewrite CaptureScreenAsync_body_eq. unfold mbind at 1 2.
  unfold Exec_bind at 1 2.
  rewrite (start_session_returns _ false _ Hs), bind_val, Hw, bind_val.
  rewrite closing_run. reflexivity.
Qed.

Lemma CaptureScreenAsync_n_trace fuel P :
  trace_of (Legacy.CaptureScreenAsync_n fuel P)
  = trace_of (Legacy.CaptureScreenAsync_body fuel P).
Proof.
  unfold Legacy.CaptureScreenAsync_n.
  destruct (Legacy.CaptureScreenAsync_body fuel P) as [[u|[]|] t];
    reflexivity.
Qed.

(** X18: the first version of the capture closes the session after the
    wait on every schedule of notifications, the one on which nothing
    arrives and the wait times out included: once the session started,
    its calls are the setup calls, at most 200 turns of the wait, and
    then [session.Close()] followed, when that returns, by
    [framePool.Close()]. *)
Theorem legacy_capture_closes_after_wait P :
  session_starts P false = true ->
  exists t,
    trace_of (Legacy.CaptureScreenAsync P)
    = setup_calls P false false ++ t ++ closing_calls P
    /\ (polls t <= poll_budget)%nat
    /\ (no_notification P -> t = quiet_turns (polls t)).
Proof.
  intros Hs.
  destruct (CaptureScreenAsync_body_run P Hs) as (t & Hn & Hq & Hrun).
  exists t. unfold Legacy.CaptureScreenAsync.
  rewrite CaptureScreenAsync_n_trace, Hrun. auto.
Qed.

Lemma legacy_capture_closes_after_wait_witness :
  exists t,
    trace_of (Legacy.CaptureScreenAsync silent)
    = setup_calls silent false false ++ t ++ closing_calls silent
    /\ (polls t <= poll_budget)%nat
    /\ (no_notification silent -> t = quiet_turns (polls t)).
Proof.
  apply (legacy_capture_closes_after_wait silent). reflexivity.
Defined.

Lemma CaptureScreenAsync_result P :
  result_of (Legacy.CaptureScreenAsync P) = Val tt
  \/ result_of (Legacy.CaptureScreenAsync P) = Throw other_exception.
Proof.
  unfold Legacy.CaptureScreenAsync, Legacy.CaptureScreenAsync_n.
  destruct (session_starts P false) eqn:Hs.
  - destruct (CaptureScreenAsync_body_run P Hs) as (t & _ & _ & ->).
    unfold closing_result.
    destruct (on_Session_Close P) as [|[]], (on_FramePool_Close P) as [|[]];
      cbn; auto.
  - rewrite CaptureScreenAsync_body_eq.
    destruct (start_session_throws P false false Hs) as [e He].
    unfold mbind at 1. unfold Exec_bind at 1.
    destruct (start_session P false false) as [r t].
    cbn [result_of fst] in He. subst r. destruct e; cbn; auto.
Qed.

(** X19: the first version of the program ends with exit code 0 or -1
    on every platform: nothing escapes [wmain] and the wait never
    outlasts its bound. *)
Theorem legacy_wmain_exit_code P :
  result_of (Legacy.wmain P) = Val 0%Z
  \/ result_of (Legacy.wmain P) = Val (-1)%Z.
Proof.
  unfold Legacy.wmain, call, mbind, Exec_bind.
  destruct (on_init_apartment P); [|right; reflexivity].
  cbn [bind].
  destruct (CaptureScreenAsync_result P) as [H|H];
    destruct (Legacy.CaptureScreenAsync P) as [r t];
    cbn [result_of fst] in H; subst r; cbn; auto.
Qed.

(** X20: exit code 0 of the first version says nothing about the
    capture: when the Direct3D device cannot be created, and when the
    session starts and is closed, whatever arrives or does not arrive
    during the wait, [wmain] returns 0. *)
Theorem legacy_wmain_hides_failure P :
  on_init_apartment P = Returns ->
  FAILED (on_D3D11CreateDevice P) = true
  \/ (session_starts P false = true /\ cleanup_returns P = true) ->
  result_of (Legacy.wmain P) = Val 0%Z.
Proof.
  intros Hinit Hcase.
  assert (result_of (Legacy.CaptureScreenAsync P) = Val tt) as Hrun.
  { unfold Legacy.CaptureScreenAsync, Legacy.CaptureScreenAsync_n.
    destruct Hcase as [Hdev|[Hs Hc]].
    - unfold Legacy.CaptureScreenAsync_body, CreateD3DDevice,
        hresult_outcome. rewrite Hdev. reflexivity.
    - destruct (CaptureScreenAsync_body_run P Hs) as (t & _ & _ & ->).
      unfold closing_result, cleanup_returns in *.
      split_andb. use_outcomes. reflexivity. }
  unfold Legacy.wmain, call, mbind, Exec_bind. rewrite Hinit. cbn [bind].
  destruct (Legacy.CaptureScreenAsync P) as [r t].
  cbn [result_of fst] in Hrun. subst r. reflexivity.
Qed.

Lemma legacy_wmain_hides_failure_witness :
  result_of (Legacy.wmain no_device) = Val 0%Z
  /\ result_of (Legacy.wmain silent) = Val 0%Z.
Proof.
  split.
  - apply (legacy_wmain_hides_failure no_device);
      [reflexivity | left; reflexivity].
  - apply (legacy_wmain_hides_failure silent);
      [reflexivity | right; split; reflexivity].
Defined.

(** ** Memory capture: the paths off the contract *)

(** X21: after a memory capture that does not report success, with
    both out-pointers valid, the heap is as before and the output
    buffer is null; the size is zero except when the allocation of the
    caller's buffer failed: then the result is [SC_UNKNOWN_ERROR] and
    the size still holds the length of the image. *)
Theorem size_after_failed_capture
    (CaptureToMemory : bool -> bool -> MemoryCaptureAnswer)
    (v : Ptr) (w : N) (hideBorder hideCursor : Z) (a : Ptr) (h : Heap) :
  let r := CaptureScreenToMemory CaptureToMemory (Some v) (Some w)
             hideBorder hideCursor a h in
  mc_result r <> SC_SUCCESS ->
  mc_heap r = h
  /\ mc_outputBuffer r = Some NULL
  /\ (mc_bufferSize r = Some 0
      \/ (a = NULL
          /\ mc_result r = SC_UNKNOWN_ERROR
          /\ exists png,
               CaptureToMemory (negb (hideBorder =? 0)%Z)
                               (negb (hideCursor =? 0)%Z)
               = Captured Success png
               /\ png <> []
               /\ mc_bufferSize r
                  = Some (to_unsigned_int (N.of_nat (length png))))).
Proof.
  cbv zeta. unfold CaptureScreenToMemory.
  destruct (CaptureToMemory _ _) as [code png|e]; [|cbn; auto].
  destruct (bool_decide (code = Success) && negb (length png =? 0)%nat)
    eqn:Hok; [|cbn; auto].
  apply andb_prop in Hok as [Hcode Hlen].
  apply bool_decide_eq_true in Hcode. subst code.
  unfold malloc. destruct (a =? NULL) eqn:Ha; cbn; rewrite ?Ha; cbn.
  - apply N.eqb_eq in Ha. intros _. repeat split. right.
    repeat split; [exact Ha|]. exists png. repeat split.
    intros ->. discriminate Hlen.
  - intros H. contradiction H. reflexivity.
Qed.

Lemma size_after_failed_capture_witness :
  let r := CaptureScreenToMemory captures_signature (Some 0) (Some 0)
             1 1 NULL ∅ in
  mc_result r <> SC_SUCCESS
  /\ mc_outputBuffer r = Some NULL
  /\ mc_bufferSize r = Some 8.
Proof.
  cbv zeta.
  destruct (size_after_failed_capture captures_signature 0 0 1 1 NULL ∅)
    as (_ & Hbuf & _).
  - discriminate.
  - split; [discriminate|]. split; [exact Hbuf | reflexivity].
Defined.

(** X22: a memory capture that reports success hands out a null
    buffer exactly when the core reported success with an empty
    image; the size is then zero and nothing was allocated. *)
Theorem success_with_null_buffer
    (CaptureToMemory : bool -> bool -> MemoryCaptureAnswer)
    (v : Ptr) (w : N) (hideBorder hideCursor : Z) (a : Ptr) (h : Heap) :
  let r := CaptureScreenToMemory CaptureToMemory (Some v) (Some w)
             hideBorder hideCursor a h in
  mc_result r = SC_SUCCESS ->
  (mc_outputBuffer r = Some NULL
   <-> CaptureToMemory (negb (hideBorder =? 0)%Z) (negb (hideCursor =? 0)%Z)
       = Captured Success [])
  /\ (mc_outputBuffer r = Some NULL ->
      mc_bufferSize r = Some 0 /\ mc_heap r = h).
Proof.
  cbv zeta. unfold CaptureScreenToMemory.
  destruct (CaptureToMemory _ _) as [code png|e]; [|discriminate].
  destruct (bool_decide (code = Success) && negb (length png =? 0)%nat)
    eqn:Hok.
  - apply andb_prop in Hok as [_ Hlen].
    unfold malloc. destruct (a =? NULL) eqn:Ha; cbn; rewrite ?Ha; cbn;
      [discriminate|].
    apply N.eqb_neq in Ha. intros _. split; [split|].
    + intros [= H]. contradiction.
    + intros [= _ ->]. discriminate Hlen.
    + intros [= H]. contradiction.
  - cbn. intros Hres. split; [|auto]. split; [|reflexivity]. intros _.
    assert (code = Success) as -> by (destruct code; first [reflexivity | discriminate Hres]).
    destruct png; [reflexivity|]. discriminate Hok.
Qed.

Lemma success_with_null_buffer_witness :
  let r := CaptureScreenToMemory (fun _ _ => Captured Success [])
             (Some 0) (Some 0) 1 1 8192 ∅ in
  mc_result r = SC_SUCCESS
  /\ mc_outputBuffer r = Some NULL
  /\ mc_bufferSize r = Some 0.
Proof.
  cbv zeta.
  destruct (success_with_null_buffer (fun _ _ => Captured Success [])
              0 0 1 1 8192 ∅) as [[_ Hnull] Hsize].
  - reflexivity.
  - split; [reflexivity|]. split; [apply Hnull; reflexivity|].
    apply Hsize. apply Hnull. reflexivity.
Defined.
